(** * s3-tidy: the scan-and-report loop of [main.go]

    A shallow embedding of [runScan] (main.go, lines 60-148) and of the part
    of [main] that calls it, followed by the properties of the scan that the
    specification states.

    The storage client, the clock and the process environment are the
    collaborators of the program; they are the variables of the sections
    below.  Everything the program itself computes is a definition. *)

From Stdlib Require Import ZArith String List Bool Lia.
From Stdlib Require Import SpecFloat.
Import ListNotations.
Local Open Scope Z_scope.

(** ** Machine integers

    [totalSize] is an [int64]; [staleCount], [deletedCount] and [days] are
    [int], taken at its 64-bit width (amd64, arm64).  Go's signed arithmetic
    wraps around in two's complement. *)

Definition int64_min : Z := - 2 ^ 63.
Definition int64_max : Z := 2 ^ 63 - 1.

Definition wrap64 (x : Z) : Z := (x + 2 ^ 63) mod 2 ^ 64 - 2 ^ 63.

Definition in_int64 (x : Z) : Prop := int64_min <= x <= int64_max.

(** ** Data model *)

(** [time.Time] values are compared as instants; an instant is a number of
    nanoseconds on the time line.  [t.Before(u)] is strict. *)
Definition Time : Type := Z.

Definition Before (t u : Time) : bool := t <? u.

(** The error values of the SDK are opaque to the program: it only tests
    them against [nil] and prints them. *)
Definition error : Type := string.

(** [types.Object] of the S3 SDK, restricted to the fields [runScan] reads.
    All three are pointers; [None] is [nil]. *)
Record Object : Type := mkObject {
  Key : option string;
  LastModified : option Time;
  Size : option Z
}.

(** One answer of [paginator.NextPage]: a page with its [Contents], or an
    error. *)
Inductive PageResult : Type :=
| PageOk (contents : list Object)
| PageErr (err : error).

(** What the process does that can be seen from outside, one constructor per
    statement of [runScan] with an effect.  The constructors carry the
    arguments of the statement; the numbers printed through [%.2f] and
    [%.4f] are [float64] values computed from the integer carried here. *)
Inductive Event : Type :=
| FatalConfig (err : error)                          (* line 66 *)
| ScanBanner (bucket : string) (cutoff : Time) (days : Z)       (* line 72 *)
| FatalList (err : error)                            (* line 86 *)
| DryRunLine (key : string) (lastModified : Time) (size : option Z) (* line 108 *)
| DeleteCall (bucket : string) (key : option string) (result : option error)
                                                     (* lines 111-114 *)
| DeleteWarn (key : string) (err : error)            (* line 116 *)
| DeletedLine (key : string)                         (* line 118 *)
| Separator                                          (* line 127 *)
| ReportHeader                                       (* line 134 *)
| ReportStale (staleCount : Z)                       (* line 135 *)
| ReportGB (totalSize : Z)                           (* line 136 *)
| ReportSavings (totalSize : Z)                      (* line 137 *)
| ReportFootnote                                     (* line 138 *)
| DrySummary (staleCount : Z) (totalSize : Z)        (* line 143 *)
| DryHint                                            (* line 144 *)
| CleanupSummary (deletedCount : Z).                 (* line 146 *)

(** How a call ends before its last statement: [log.Fatalf] prints and calls
    [os.Exit(1)]; a nil dereference is a run-time panic. *)
Inductive Abort : Type :=
| Fatal
| Panic.

Inductive Res (A : Type) : Type :=
| Val (a : A)
| Stop (why : Abort).

Arguments Val {A} a.
Arguments Stop {A} why.

(** How the process ends. *)
Inductive Outcome : Type :=
| Returned
| FatalExit
| Panicked.

(** Exit status of the process.  [main] returns after [rootCmd.Execute]
    gave no error: status 0.  [log.Fatalf] is [os.Exit(1)].  An unrecovered
    panic ends a Go program with status 2. *)
Definition exitCode (o : Outcome) : Z :=
  match o with
  | Returned => 0
  | FatalExit => 1
  | Panicked => 2
  end.

Section Scan.

(** The storage backend behind [client.DeleteObject]: a state of its own
    and an answer ([None] is a nil error) for each call. *)
Variable S3 : Type.
Variable DeleteObject : S3 -> string -> option string -> S3 * option error.

(** [time.Now()] and [Time.AddDate]. *)
Variable now : Time.
Variable AddDate : Time -> Z -> Z -> Z -> Time.

(** The locals of [runScan] that the loop updates, the backend, and the
    events so far, oldest first. *)
Record State : Type := mkState {
  staleCount : Z;
  totalSize : Z;
  deletedCount : Z;
  s3 : S3;
  out : list Event
}.

(** State and early termination.  The state at a [Stop] is the state in
    which the process ended. *)
Definition M (A : Type) : Type := State -> Res A * State.

Definition ret {A : Type} (a : A) : M A := fun s => (Val a, s).

Definition bind {A B : Type} (m : M A) (k : A -> M B) : M B :=
  fun s =>
    match m s with
    | (Val a, s') => k a s'
    | (Stop w, s') => (Stop w, s')
    end.

Notation "x <- m ;; k" := (bind m (fun x => k))
  (at level 100, m at next level, right associativity).
Notation "m ;; k" := (bind m (fun _ => k))
  (at level 100, right associativity).

Definition emit (e : Event) : M unit :=
  fun s => (Val tt, mkState (staleCount s) (totalSize s) (deletedCount s)
                            (s3 s) (out s ++ [e])).

(** [*p] and method calls through [p]: a panic when [p] is nil. *)
Definition deref {A : Type} (p : option A) : M A :=
  fun s => match p with
           | Some a => (Val a, s)
           | None => (Stop Panic, s)
           end.

(** [log.Fatalf]. *)
Definition fatalf {A : Type} (e : Event) : M A :=
  fun s => (Stop Fatal, mkState (staleCount s) (totalSize s) (deletedCount s)
                                (s3 s) (out s ++ [e])).

(** [staleCount++] *)
Definition incStale : M unit :=
  fun s => (Val tt, mkState (wrap64 (staleCount s + 1)) (totalSize s)
                            (deletedCount s) (s3 s) (out s)).

(** [totalSize += *obj.Size] *)
Definition addSize (n : Z) : M unit :=
  fun s => (Val tt, mkState (staleCount s) (wrap64 (totalSize s + n))
                            (deletedCount s) (s3 s) (out s)).

(** [deletedCount++] *)
Definition incDeleted : M unit :=
  fun s => (Val tt, mkState (staleCount s) (totalSize s)
                            (wrap64 (deletedCount s + 1)) (s3 s) (out s)).

(** [client.DeleteObject(ctx, &s3.DeleteObjectInput{Bucket, Key})]: the
    call and its answer are one event. *)
Definition deleteObject (bucket : string) (key : option string)
  : M (option error) :=
  fun s =>
    let (b, err) := DeleteObject (s3 s) bucket key in
    (Val err, mkState (staleCount s) (totalSize s) (deletedCount s) b
                      (out s ++ [DeleteCall bucket key err])).

Definition getStale : M Z := fun s => (Val (staleCount s), s).
Definition getTotal : M Z := fun s => (Val (totalSize s), s).
Definition getDeleted : M Z := fun s => (Val (deletedCount s), s).

Section Flags.

Variable bucket : string.
Variable cutoff : Time.
Variable isDryRun isReport : bool.

(** Lines 91-121: the body of [if obj.LastModified.Before(cutoff)]. *)
Definition staleObject (obj : Object) (lastModified : Time) : M unit :=
  incStale ;;
  match Size obj with
  | Some n => addSize n
  | None => ret tt
  end ;;
  if isReport then ret tt                       (* continue *)
  else if isDryRun then
    key <- deref (Key obj) ;;
    emit (DryRunLine key lastModified (Size obj))
  else
    err <- deleteObject bucket (Key obj) ;;
    match err with
    | Some e =>
        key <- deref (Key obj) ;;
        emit (DeleteWarn key e)
    | None =>
        key <- deref (Key obj) ;;
        emit (DeletedLine key) ;;
        incDeleted
    end.

(** Lines 90-122: one turn of the inner loop. *)
Definition scanObject (obj : Object) : M unit :=
  lastModified <- deref (LastModified obj) ;;
  if Before lastModified cutoff then staleObject obj lastModified
  else ret tt.

(** Lines 89-123: [for _, obj := range page.Contents]. *)
Fixpoint scanContents (contents : list Object) : M unit :=
  match contents with
  | [] => ret tt
  | obj :: rest => scanObject obj ;; scanContents rest
  end.

(** Lines 83-124: [for paginator.HasMorePages()].  The paginator is the
    sequence of answers it still has to give. *)
Fixpoint scanPages (pages : list PageResult) : M unit :=
  match pages with
  | [] => ret tt
  | PageErr e :: _ => fatalf (FatalList e)
  | PageOk contents :: rest => scanContents contents ;; scanPages rest
  end.

(** Lines 127-147. *)
Definition summary : M unit :=
  emit Separator ;;
  n <- getStale ;;
  sz <- getTotal ;;
  d <- getDeleted ;;
  if isReport then
    emit ReportHeader ;;
    emit (ReportStale n) ;;
    emit (ReportGB sz) ;;
    emit (ReportSavings sz) ;;
    emit ReportFootnote
  else if isDryRun then
    emit (DrySummary n sz) ;;
    emit DryHint
  else
    emit (CleanupSummary d).

End Flags.

(** Line 71: [time.Now().AddDate(0, 0, -days)]. *)
Definition cutoffOf (days : Z) : Time := AddDate now 0 0 (wrap64 (- days)).

(** [runScan], on the answer of [config.LoadDefaultConfig] and the answers
    of the paginator. *)
Definition runScan (loadErr : option error) (pages : list PageResult)
    (bucket : string) (days : Z) (isDryRun isReport : bool) : M unit :=
  match loadErr with
  | Some e => fatalf (FatalConfig e)
  | None =>
      let cutoff := cutoffOf days in
      emit (ScanBanner bucket cutoff days) ;;
      scanPages bucket cutoff isDryRun isReport pages ;;
      summary isDryRun isReport
  end.

(** The state [runScan] starts from: lines 78-80 and a silent process. *)
Definition start (backend : S3) : State := mkState 0 0 0 backend [].

Definition outcomeOf (r : Res unit) : Outcome :=
  match r with
  | Val _ => Returned
  | Stop Fatal => FatalExit
  | Stop Panic => Panicked
  end.

(** The process on [s3-tidy scan --bucket b --days d ...]: [main] hands the
    flags to [runScan] (line 41) and returns when it returns. *)
Definition scanCmd (loadErr : option error) (pages : list PageResult)
    (bucket : string) (days : Z) (isDryRun isReport : bool) (backend : S3)
  : Outcome * State :=
  let (r, s) := runScan loadErr pages bucket days isDryRun isReport
                        (start backend) in
  (outcomeOf r, s).

End Scan.

Arguments staleCount {S3} s.
Arguments totalSize {S3} s.
Arguments deletedCount {S3} s.
Arguments s3 {S3} s.
Arguments out {S3} s.
Arguments mkState {S3} staleCount totalSize deletedCount s3 out.
Arguments start {S3} backend.
Arguments ret {S3 A} a s.
Arguments bind {S3 A B} m k s.
Arguments emit {S3} e s.
Arguments deref {S3 A} p s.
Arguments fatalf {S3 A} e s.
Arguments incStale {S3} s.
Arguments addSize {S3} n s.
Arguments incDeleted {S3} s.
Arguments deleteObject {S3} DeleteObject bucket key s.
Arguments staleObject {S3} DeleteObject bucket isDryRun isReport obj lastModified s.
Arguments scanObject {S3} DeleteObject bucket cutoff isDryRun isReport obj s.
Arguments scanContents {S3} DeleteObject bucket cutoff isDryRun isReport contents s.
Arguments scanPages {S3} DeleteObject bucket cutoff isDryRun isReport pages s.
Arguments summary {S3} isDryRun isReport s.
Arguments runScan {S3} DeleteObject now AddDate loadErr pages bucket days
  isDryRun isReport s.
Arguments scanCmd {S3} DeleteObject now AddDate loadErr pages bucket days
  isDryRun isReport backend.

(** ** Vocabulary of the specification *)

(** A record is stale when its timestamp is strictly before the cutoff. *)
Definition isStale (cutoff : Time) (obj : Object) : bool :=
  match LastModified obj with
  | Some t => t <? cutoff
  | None => false
  end.


(** The records of the pages that were listed: those of the pages before the
    first failure of [NextPage]. *)
Fixpoint seen (pages : list PageResult) : list Object :=
  match pages with
  | [] => []
  | PageErr _ :: _ => []
  | PageOk contents :: rest => contents ++ seen rest
  end.

(** The first failure of [NextPage], if there is one. *)
Fixpoint firstError (pages : list PageResult) : option error :=
  match pages with
  | [] => None
  | PageErr e :: _ => Some e
  | PageOk _ :: rest => firstError rest
  end.


Definition staleOnes (cutoff : Time) (objs : list Object) : list Object :=
  filter (isStale cutoff) objs.

Definition countStale (cutoff : Time) (objs : list Object) : Z :=
  Z.of_nat (length (staleOnes cutoff objs)).

Definition sizeOf (obj : Object) : Z :=
  match Size obj with
  | Some n => n
  | None => 0
  end.

Fixpoint sumZ (l : list Z) : Z :=
  match l with
  | [] => 0
  | x :: r => x + sumZ r
  end.

(** Sum of the sizes of the stale records that carry one. *)
Definition staleBytes (cutoff : Time) (objs : list Object) : Z :=
  sumZ (map sizeOf (staleOnes cutoff objs)).

(** Readings of a trace. *)
Definition isDeleteCall (e : Event) : bool :=
  match e with DeleteCall _ _ _ => true | _ => false end.

Definition isFailedDelete (e : Event) : bool :=
  match e with DeleteCall _ _ (Some _) => true | _ => false end.

Definition isDryRunLine (e : Event) : bool :=
  match e with DryRunLine _ _ _ => true | _ => false end.

Definition isSummary (e : Event) : bool :=
  match e with
  | Separator | ReportHeader | ReportStale _ | ReportGB _ | ReportSavings _
  | ReportFootnote | DrySummary _ _ | DryHint | CleanupSummary _ => true
  | _ => false
  end.

Definition count (p : Event -> bool) (tr : list Event) : Z :=
  Z.of_nat (length (filter p tr)).

(** The keys [DeleteObject] was called with, in order. *)
Fixpoint deletedKeys (tr : list Event) : list (option string) :=
  match tr with
  | [] => []
  | DeleteCall _ k _ :: r => k :: deletedKeys r
  | _ :: r => deletedKeys r
  end.

(** The nil pointers [runScan] would trip over in a record. *)
Definition derefSafe (cutoff : Time) (isReport : bool) (obj : Object) : bool :=
  match LastModified obj with
  | None => false
  | Some t =>
      if t <? cutoff then
        isReport || match Key obj with Some _ => true | None => false end
      else true
  end.

(** The accumulators are machine integers. *)
Definition accOK {S3 : Type} (s : State S3) : Prop :=
  in_int64 (staleCount s) /\ in_int64 (totalSize s) /\ in_int64 (deletedCount s).

(** The state after lines 91-96 on a stale record. *)
Definition counted {S3 : Type} (obj : Object) (s : State S3) : State S3 :=
  mkState (wrap64 (staleCount s + 1))
          (match Size obj with
           | Some n => wrap64 (totalSize s + n)
           | None => totalSize s
           end)
          (deletedCount s) (s3 s) (out s).

Definition isOkDelete (e : Event) : bool :=
  match e with DeleteCall _ _ None => true | _ => false end.

(** A state with more events. *)
Definition addOut {S3 : Type} (s : State S3) (evs : list Event) : State S3 :=
  mkState (staleCount s) (totalSize s) (deletedCount s) (s3 s) (out s ++ evs).

(** The state in which [runScan] enters the pagination loop (line 83). *)
Definition entry {S3 : Type} (backend : S3) (bucket : string) (cutoff : Time)
    (days : Z) : State S3 :=
  addOut (start backend) [ScanBanner bucket cutoff days].

(** A listing whose records all have a nil [Size]. *)
Definition withoutSize (obj : Object) : Object :=
  mkObject (Key obj) (LastModified obj) None.

Definition withoutSizes (pages : list PageResult) : list PageResult :=
  map (fun p => match p with
                | PageOk contents => PageOk (map withoutSize contents)
                | PageErr e => PageErr e
                end) pages.

(** The lines of the summary, by mode. *)
Definition summaryLines (isDryRun isReport : bool) (n sz d : Z) : list Event :=
  Separator ::
  (if isReport then
     [ReportHeader; ReportStale n; ReportGB sz; ReportSavings sz; ReportFootnote]
   else if isDryRun then [DrySummary n sz; DryHint]
   else [CleanupSummary d]).

(** ** Concrete inputs

    The example of the specification: a threshold of 30 days, A modified 40
    days ago (1 GiB) and B modified 5 days ago (2 GiB). *)

Definition dayNs : Z := 86400 * 10 ^ 9.

(** [AddDate] for whole days in a zone without clock changes. *)
Definition addDays (t : Time) (years months days : Z) : Time := t + days * dayNs.

Definition noon : Time := 1700000000 * 10 ^ 9.

Definition GiB : Z := 1024 * 1024 * 1024.

Definition objA : Object :=
  mkObject (Some "logs/a.log"%string) (Some (noon - 40 * dayNs)) (Some GiB).

Definition objB : Object :=
  mkObject (Some "logs/b.log"%string) (Some (noon - 5 * dayNs)) (Some (2 * GiB)).

(** Stale records with a nil size, a nil key, and a record without a
    timestamp. *)
Definition objNoSize : Object :=
  mkObject (Some "tmp/c.bin"%string) (Some (noon - 90 * dayNs)) None.

Definition objNoKey : Object :=
  mkObject None (Some (noon - 90 * dayNs)) (Some 7).

Definition objNoTime : Object :=
  mkObject (Some "tmp/d.bin"%string) None (Some 7).

(** A stale record of 2^62 bytes. *)
Definition objHuge : Object :=
  mkObject (Some "huge"%string) (Some (noon - 90 * dayNs)) (Some (2 ^ 62)).

(** Backends.  The state counts the calls served. *)
Definition okBackend (n : nat) (bucket : string) (key : option string)
  : nat * option error := (S n, None).

Definition deniedBackend (n : nat) (bucket : string) (key : option string)
  : nat * option error := (S n, Some "AccessDenied"%string).

(** Refuses the first call and accepts the later ones. *)
Definition flakyBackend (n : nat) (bucket : string) (key : option string)
  : nat * option error :=
  match n with
  | O => (S n, Some "SlowDown"%string)
  | _ => (S n, None)
  end.

Definition bkt : string := "my-app-logs"%string.

Definition examplePages : list PageResult := [PageOk [objA; objB]].

(** ** More readings of a trace *)

Definition isDeletedLine (e : Event) : bool :=
  match e with DeletedLine _ => true | _ => false end.

Definition isDeleteWarn (e : Event) : bool :=
  match e with DeleteWarn _ _ => true | _ => false end.

Definition isSeparator (e : Event) : bool :=
  match e with Separator => true | _ => false end.

Definition isReportHeader (e : Event) : bool :=
  match e with ReportHeader => true | _ => false end.

Definition isDrySummary (e : Event) : bool :=
  match e with DrySummary _ _ => true | _ => false end.

Definition isCleanupSummary (e : Event) : bool :=
  match e with CleanupSummary _ => true | _ => false end.

(** The keys named by the [DRY RUN] lines, in order. *)
Fixpoint dryRunKeys (tr : list Event) : list string :=
  match tr with
  | [] => []
  | DryRunLine k _ _ :: r => k :: dryRunKeys r
  | _ :: r => dryRunKeys r
  end.

(** The [DRY RUN] line of a record that has its key and its timestamp. *)
Definition dryRunLineOf (obj : Object) : list Event :=
  match Key obj, LastModified obj with
  | Some k, Some t => [DryRunLine k t (Size obj)]
  | _, _ => []
  end.

(** The backend after [DeleteObject] was called with these keys, in order. *)
Definition afterDeletes {S3 : Type}
    (DeleteObject : S3 -> string -> option string -> S3 * option error)
    (bucket : string) (keys : list (option string)) (backend : S3) : S3 :=
  fold_left (fun w k => fst (DeleteObject w bucket k)) keys backend.

(** ** The command line: [main] (lines 16-58)

    [rootCmd.Execute] is cobra's; what it does with the arguments of the
    process is its answer, as the pages are the paginator's.  It runs the
    [Run] of the root command, or the [Run] of [scan] after storing the flags
    that were given, or returns an error, or deals with the arguments itself
    (help) and returns nil. *)
Module Cli.

(** The global flag variables (lines 17-22). *)
Record Flags : Type := mkFlags {
  bucketName : string;
  days : Z;
  dryRun : bool;
  reportOnly : bool
}.

(** The defaults of the flag definitions (lines 46-49). *)
Definition defaults : Flags := mkFlags EmptyString 30 true false.

(** The flags written on the command line. *)
Record Given : Type := mkGiven {
  givenBucket : option string;
  givenDays : option Z;
  givenDryRun : option bool;
  givenReport : option bool
}.

Definition orDefault {A : Type} (given : option A) (default : A) : A :=
  match given with
  | Some a => a
  | None => default
  end.

(** The flag variables when [Run] is called: the value given, else the
    default. *)
Definition parsed (g : Given) : Flags :=
  mkFlags (orDefault (givenBucket g) (bucketName defaults))
          (orDefault (givenDays g) (days defaults))
          (orDefault (givenDryRun g) (dryRun defaults))
          (orDefault (givenReport g) (reportOnly defaults)).

Inductive Dispatch : Type :=
| RunRoot
| RunScan (g : Given)
| ExecuteError (err : error)
| ExecuteNil.

(** The statements of [main] and of what it calls that can be seen. *)
Inductive MainEvent : Type :=
| HintLine                       (* line 33 *)
| ErrorLine (err : error)        (* line 55 *)
| ScanEvent (e : Event).         (* line 41 *)

(** How [main] ends: exit status, backend, events. *)
Record Ended (S3 : Type) : Type := mkEnded {
  status : Z;
  backend : S3;
  events : list MainEvent
}.

Arguments mkEnded {S3} status backend events.
Arguments status {S3} e.
Arguments backend {S3} e.
Arguments events {S3} e.

Definition main {S3 : Type}
    (DeleteObject : S3 -> string -> option string -> S3 * option error)
    (now : Time) (AddDate : Time -> Z -> Z -> Z -> Time)
    (dispatch : Dispatch) (loadErr : option error) (pages : list PageResult)
    (b : S3) : Ended S3 :=
  match dispatch with
  | RunRoot => mkEnded 0 b [HintLine]
  | RunScan g =>
      let f := parsed g in
      let (o, s) := scanCmd DeleteObject now AddDate loadErr pages
                            (bucketName f) (days f) (dryRun f) (reportOnly f)
                            b in
      mkEnded (exitCode o) (s3 s) (map ScanEvent (out s))
  | ExecuteError err => mkEnded 1 b [ErrorLine err]   (* lines 54-57 *)
  | ExecuteNil => mkEnded 0 b []
  end.

Definition isScanDelete (e : MainEvent) : bool :=
  match e with
  | ScanEvent (DeleteCall _ _ _) => true
  | _ => false
  end.

End Cli.

(** ** The figures of the report (lines 25, 130-137)

    [float64] is IEEE 754 binary64, in the specification of the standard
    library ([prec = 53], [emax = 1024]); conversions and operations round to
    nearest, ties to even. *)

Definition float64 : Type := spec_float.

(** [float64(totalSize)] *)
Definition float64_of_int64 (z : Z) : float64 :=
  binary_normalize 53 1024 z 0 false.

Definition float64_div (x y : float64) : float64 := SFdiv 53 1024 x y.

Definition float64_mul (x y : float64) : float64 := SFmul 53 1024 x y.

(** The untyped constant [1024] where a [float64] is wanted. *)
Definition const_1024 : float64 := float64_of_int64 1024.

(** Line 25: the constant [0.023] where a [float64] is wanted, that is the
    [float64] nearest to 23/1000; 23 and 1000 are [float64] values and the
    division rounds correctly. *)
Definition pricePerGB : float64 :=
  float64_div (float64_of_int64 23) (float64_of_int64 1000).

(** Line 130: [float64(totalSize) / 1024 / 1024 / 1024] *)
Definition sizeInGB (totalSize : Z) : float64 :=
  float64_div
    (float64_div (float64_div (float64_of_int64 totalSize) const_1024)
                 const_1024)
    const_1024.

(** Line 131: [sizeInGB * pricePerGB] *)
Definition estimatedSavings (totalSize : Z) : float64 :=
  float64_mul (sizeInGB totalSize) pricePerGB.

(** [n / d] rounded to the nearest integer, ties to even ([0 < d]). *)
Definition round_half_even (n d : Z) : Z :=
  let q := n / d in
  match 2 * (n mod d) ?= d with
  | Lt => q
  | Gt => q + 1
  | Eq => if Z.even q then q else q + 1
  end.

(** [%.4f]: the decimal with four places nearest to the exact value of the
    [float64], ties to even, here as a number of ten-thousandths; [None] for
    an infinity or a NaN, which print as words. *)
Definition fmt4 (x : float64) : option Z :=
  match x with
  | S754_zero _ => Some 0
  | S754_finite s m e =>
      let a := match e with
               | Zneg k => round_half_even (Zpos m * 10000) (2 ^ Zpos k)
               | _ => Zpos m * 10000 * 2 ^ e
               end in
      Some (if s then - a else a)
  | _ => None
  end.

(** The number a line of the report prints through [%.4f] (lines 136 and
    137), in ten-thousandths. *)
Definition fourDecimals (e : Event) : option Z :=
  match e with
  | ReportGB sz => fmt4 (sizeInGB sz)
  | ReportSavings sz => fmt4 (estimatedSavings sz)
  | _ => None
  end.

(** A stale record of 256 MiB. *)
Definition objQuarterGiB : Object :=
  mkObject (Some "cache/blob"%string) (Some (noon - 90 * dayNs))
           (Some (2 ^ 28)).

(** Evaluates the powers of two with a closed exponent. *)
Ltac calc_pow :=
  repeat match goal with
         | H : context [2 ^ ?n] |- _ =>
             let v := eval vm_compute in (2 ^ n) in change (2 ^ n) with v in H
         | |- context [2 ^ ?n] =>
             let v := eval vm_compute in (2 ^ n) in change (2 ^ n) with v
         end.

(** ** Machine arithmetic *)

Lemma wrap64_range (x : Z) : in_int64 (wrap64 x).
Proof.
  unfold in_int64, wrap64, int64_min, int64_max.
  pose proof (Z.mod_pos_bound (x + 2 ^ 63) (2 ^ 64) ltac:(lia)). lia.
Qed.

Lemma wrap64_id (x : Z) : in_int64 x -> wrap64 x = x.
Proof.
  unfold in_int64, wrap64, int64_min, int64_max. intros H.
  rewrite Z.mod_small; lia.
Qed.

Lemma wrap64_add_l (a b : Z) : wrap64 (wrap64 a + b) = wrap64 (a + b).
Proof.
  unfold wrap64.
  replace ((a + 2 ^ 63) mod 2 ^ 64 - 2 ^ 63 + b + 2 ^ 63)
    with ((a + 2 ^ 63) mod 2 ^ 64 + b) by lia.
  rewrite Zplus_mod_idemp_l. f_equal. f_equal. lia.
Qed.


Lemma in_int64_0 : in_int64 0.
Proof. unfold in_int64, int64_min, int64_max. lia. Qed.

(** ** Readings of a trace are additive *)

Lemma count_app (p : Event -> bool) (a b : list Event) :
  count p (a ++ b) = count p a + count p b.
Proof. unfold count. rewrite filter_app, length_app. lia. Qed.

Lemma count_cons (p : Event -> bool) (e : Event) (a : list Event) :
  count p (e :: a) = (if p e then 1 else 0) + count p a.
Proof. unfold count. simpl. destruct (p e); simpl length; lia. Qed.

Lemma count_nonneg (p : Event -> bool) (a : list Event) : 0 <= count p a.
Proof. unfold count. lia. Qed.

Lemma count_pos_iff (p : Event -> bool) (a : list Event) :
  0 < count p a <-> exists e, In e a /\ p e = true.
Proof.
  unfold count. split.
  - intros H. destruct (filter p a) as [| e r] eqn:E; simpl in H; [lia |].
    exists e. apply filter_In. rewrite E. left. reflexivity.
  - intros [e He]. apply filter_In in He.
    destruct (filter p a); simpl in *; [tauto | lia].
Qed.

Lemma deletedKeys_app (a b : list Event) :
  deletedKeys (a ++ b) = deletedKeys a ++ deletedKeys b.
Proof.
  induction a as [| e a IH]; simpl; [reflexivity |].
  destruct e; simpl; rewrite ?IH; reflexivity.
Qed.

Lemma deletedKeys_nil_iff (a : list Event) :
  deletedKeys a = [] <-> forall e, In e a -> isDeleteCall e = false.
Proof.
  induction a as [| e a IH]; simpl.
  - split; [intros _ e [] | reflexivity].
  - destruct e; simpl; rewrite ?IH; split; intros H;
      try discriminate;
      try (intros e' [<- | Hin]; [reflexivity | apply H; exact Hin]);
      try (intros e' Hin; apply H; right; exact Hin).
    specialize (H _ (or_introl eq_refl)). discriminate.
Qed.

(** ** binary64 arithmetic

    What the definitions of the standard library's specification compute,
    as far as the figures of the report need it. *)

(** The number of binary digits of a mantissa. *)
Lemma digits2_pos_bounds (p : positive) :
  2 ^ (Zpos (digits2_pos p) - 1) <= Zpos p < 2 ^ Zpos (digits2_pos p).
Proof.
  induction p as [p IH | p IH |]; simpl digits2_pos.
  - rewrite Pos2Z.inj_succ.
    replace (Z.succ (Zpos (digits2_pos p)) - 1) with (Z.succ (Zpos (digits2_pos p) - 1)) by lia.
    rewrite !Z.pow_succ_r by lia. lia.
  - rewrite Pos2Z.inj_succ.
    replace (Z.succ (Zpos (digits2_pos p)) - 1) with (Z.succ (Zpos (digits2_pos p) - 1)) by lia.
    rewrite !Z.pow_succ_r by lia. lia.
  - simpl. lia.
Qed.

Lemma digits2_pos_unique (p : positive) (d : Z) :
  2 ^ (d - 1) <= Zpos p < 2 ^ d -> Zpos (digits2_pos p) = d.
Proof.
  intros [L U]. pose proof (digits2_pos_bounds p) as [L' U'].
  destruct (Z.lt_trichotomy (Zpos (digits2_pos p)) d) as [H | [H | H]]; [| exact H |].
  - assert (2 ^ Zpos (digits2_pos p) <= 2 ^ (d - 1)) by (apply Z.pow_le_mono_r; lia). lia.
  - assert (0 <= d \/ d < 0) as [Hd | Hd] by lia.
    + assert (2 ^ d <= 2 ^ (Zpos (digits2_pos p) - 1)) by (apply Z.pow_le_mono_r; lia). lia.
    + rewrite (Z.pow_neg_r 2 d) in U by lia. lia.
Qed.

(** Shifting a mantissa right divides it. *)
Lemma shr_1_m (r : shr_record) :
  0 <= shr_m r -> shr_m (shr_1 r) = shr_m r / 2.
Proof.
  destruct r as [m b c]. cbn [shr_m]. intros H.
  destruct m as [| [p | p |] | p]; cbn [shr_1 shr_m]; try lia.
  - reflexivity.
  - apply Z.div_unique with (r := 1); lia.
  - apply Z.div_unique with (r := 0); lia.
  - reflexivity.
Qed.

Lemma iter_shr_1_m (n : positive) :
  forall r, 0 <= shr_m r -> shr_m (iter_pos shr_1 n r) = shr_m r / 2 ^ Zpos n.
Proof.
  induction n as [n IH | n IH |]; intros r H; simpl iter_pos.
  - assert (H1 : 0 <= shr_m (shr_1 r)) by (rewrite shr_1_m by exact H; apply Z.div_pos; lia).
    assert (H2 : 0 <= shr_m (iter_pos shr_1 n (shr_1 r)))
      by (rewrite IH by exact H1; apply Z.div_pos; [exact H1 | apply Z.pow_pos_nonneg; lia]).
    rewrite IH by exact H2. rewrite IH by exact H1. rewrite shr_1_m by exact H.
    assert (P : 0 < 2 ^ Zpos n) by (apply Z.pow_pos_nonneg; lia).
    rewrite !Z.div_div by lia.
    f_equal. replace (Zpos n~1) with (1 + Zpos n + Zpos n) by lia.
    rewrite !Z.pow_add_r by lia. change (2 ^ 1) with 2. lia.
  - assert (H2 : 0 <= shr_m (iter_pos shr_1 n r))
      by (rewrite IH by exact H; apply Z.div_pos; [exact H | apply Z.pow_pos_nonneg; lia]).
    rewrite IH by exact H2. rewrite IH by exact H.
    assert (P : 0 < 2 ^ Zpos n) by (apply Z.pow_pos_nonneg; lia).
    rewrite !Z.div_div by lia.
    f_equal. replace (Zpos n~0) with (Zpos n + Zpos n) by lia.
    rewrite !Z.pow_add_r by lia. lia.
  - rewrite shr_1_m by exact H. reflexivity.
Qed.

Lemma round_nearest_even_range (m : Z) (l : location) :
  m <= round_nearest_even m l <= m + 1.
Proof.
  destruct l as [| []]; simpl; try lia. destruct (Z.even m); lia.
Qed.

Lemma shr_record_of_loc_m (m : Z) (l : location) : shr_m (shr_record_of_loc m l) = m.
Proof. destruct l as [| []]; reflexivity. Qed.

Lemma shr_spec (r : shr_record) (e n : Z) :
  0 <= shr_m r -> 0 <= n ->
  shr_m (fst (shr r e n)) = shr_m r / 2 ^ n /\ snd (shr r e n) = e + n.
Proof.
  intros Hm Hn. destruct n as [| n | n]; simpl.
  - rewrite Z.div_1_r. lia.
  - split; [apply iter_shr_1_m; exact Hm | reflexivity].
  - lia.
Qed.

Lemma binary_round_aux_spec (sx : bool) (mx : positive) (ex : Z) (lx : location) (d : Z) :
  Zpos (digits2_pos mx) = d -> 53 <= d -> -1021 <= ex -> ex + d - 52 <= 971 ->
  exists m k,
    binary_round_aux 53 1024 sx (Zpos mx) ex lx = S754_finite sx m (ex + k)
    /\ (k = d - 53 \/ k = d - 52)
    /\ 2 ^ 52 <= Zpos m < 2 ^ 53
    /\ - 2 ^ k < Zpos m * 2 ^ k - Zpos mx <= 2 ^ k.
Proof.
  intros Hd Hd53 Hex Hmax.
  unfold binary_round_aux, shr_fexp. cbn [Zdigits2]. rewrite Hd.
  replace (fexp 53 1024 (d + ex) - ex) with (d - 53) by (unfold fexp, emin; lia).
  pose proof (shr_spec (shr_record_of_loc (Zpos mx) lx) ex (d - 53)) as S1.
  rewrite shr_record_of_loc_m in S1.
  destruct (shr (shr_record_of_loc (Zpos mx) lx) ex (d - 53)) as [mrs' e'].
  cbn [fst snd] in S1. destruct S1 as [Q1 E1]; [lia | lia |].
  pose proof (digits2_pos_bounds mx) as B. rewrite Hd in B.
  set (T1 := 2 ^ (d - 53)) in *.
  assert (PT1 : 0 < T1) by (apply Z.pow_pos_nonneg; lia).
  assert (ET : 2 ^ (d - 1) = 2 ^ 52 * T1).
  { unfold T1. rewrite <- Z.pow_add_r by lia. f_equal. lia. }
  assert (ET' : 2 ^ d = 2 ^ 53 * T1).
  { unfold T1. rewrite <- Z.pow_add_r by lia. f_equal. lia. }
  rewrite ET, ET' in B.
  pose proof (Z.div_mod (Zpos mx) T1 ltac:(lia)) as DM.
  pose proof (Z.mod_pos_bound (Zpos mx) T1 PT1) as MB.
  rewrite <- Q1 in DM.
  set (q1 := shr_m mrs') in *.
  assert (Bq : 2 ^ 52 <= q1 < 2 ^ 53) by nia.
  pose proof (round_nearest_even_range q1 (loc_of_shr_record mrs')) as R.
  set (m' := round_nearest_even q1 (loc_of_shr_record mrs')) in *.
  destruct m' as [| pm' | pm'] eqn:Em'; try lia.
  cbn [Zdigits2].
  destruct (Z.eq_dec (Zpos pm') (2 ^ 53)) as [C | C].
  - (* carry: one more shift *)
    assert (D' : Zpos (digits2_pos pm') = 54).
    { apply digits2_pos_unique. rewrite C. simpl. lia. }
    rewrite D'.
    replace (fexp 53 1024 (54 + e') - e') with 1 by (unfold fexp, emin; lia).
    pose proof (shr_spec (shr_record_of_loc (Zpos pm') loc_Exact) e' 1) as S2.
    rewrite shr_record_of_loc_m in S2.
    destruct (shr (shr_record_of_loc (Zpos pm') loc_Exact) e' 1) as [mrs'' e''].
    cbn [fst snd] in S2. destruct S2 as [Q2 E2]; [lia | lia |].
    rewrite C in Q2. change (2 ^ 53 / 2 ^ 1) with (2 ^ 52) in Q2.
    destruct (shr_m mrs'') as [| m | m] eqn:Em; try discriminate.
    assert (L : (e'' <=? 1024 - 53) = true) by (apply Z.leb_le; lia).
    rewrite L. exists m, (d - 52). split; [f_equal; lia |].
    split; [right; reflexivity |]. split; [rewrite Q2; simpl; lia |].
    replace (2 ^ (d - 52)) with (2 * T1).
    + rewrite Q2. change (2 ^ 52 * (2 * T1)) with (2 ^ 52 * (2 * T1)).
      assert (2 ^ 52 * (2 * T1) = 2 ^ 53 * T1) by (change (2 ^ 53) with (2 ^ 52 * 2); lia).
      nia.
    + unfold T1. replace (d - 52) with (1 + (d - 53)) by lia.
      rewrite Z.pow_add_r by lia. reflexivity.
  - assert (D' : Zpos (digits2_pos pm') = 53).
    { apply digits2_pos_unique. change (53 - 1) with 52. lia. }
    rewrite D'.
    replace (fexp 53 1024 (53 + e') - e') with 0 by (unfold fexp, emin; lia).
    cbn [shr]. rewrite shr_record_of_loc_m.
    assert (L : (e' <=? 1024 - 53) = true) by (apply Z.leb_le; lia).
    rewrite L. exists pm', (d - 53). split; [f_equal; lia |].
    split; [left; reflexivity |]. split; [lia |].
    fold T1. nia.
Qed.

Lemma div_1024 (s : bool) (p : positive) (e : Z) :
  Zpos (digits2_pos p) = 53 -> -1000 <= e <= 900 ->
  float64_div (S754_finite s p e) const_1024 = S754_finite s p (e - 10).
Proof.
  intros Hd He. unfold float64_div.
  change const_1024 with (S754_finite false 4503599627370496 (-42)).
  unfold SFdiv, SFdiv_core_binary. cbn [Zdigits2]. rewrite Hd.
  change (Zpos (digits2_pos 4503599627370496)) with 53.
  replace (Z.min (fexp 53 1024 (53 + e - (53 + -42))) (e - -42)) with (e - 11)
    by (unfold fexp, emin; lia).
  replace (e - -42 - (e - 11)) with 53 by lia.
  change (IntDef.Z.div_eucl (IntDef.Z.shiftl (Z.pos p) 53) 4503599627370496)
    with (Z.div_eucl (Z.shiftl (Zpos p) 53) 4503599627370496).
  assert (E : Z.div_eucl (Z.shiftl (Zpos p) 53) 4503599627370496 = (Zpos p~0, 0)).
  { pose proof (Z_div_mod (Z.shiftl (Zpos p) 53) 4503599627370496 ltac:(lia)) as DM.
    destruct (Z.div_eucl (Z.shiftl (Zpos p) 53) 4503599627370496) as [q r].
    rewrite Z.shiftl_mul_pow2 in DM by lia.
    change (2 ^ 53) with 9007199254740992 in DM.
    f_equal; lia. }
  rewrite E. cbn [new_location Z.even new_location_even Z.eqb].
  rewrite Bool.xorb_false_r.
  unfold binary_round_aux, shr_fexp. cbn [Zdigits2 digits2_pos].
  rewrite Pos2Z.inj_succ, Hd. change (Z.succ 53) with 54.
  replace (fexp 53 1024 (54 + (e - 11)) - (e - 11)) with 1
    by (unfold fexp, emin; lia).
  cbn [shr iter_pos shr_record_of_loc shr_1 shr_m shr_r shr_s orb
       loc_of_shr_record round_nearest_even Zdigits2].
  rewrite Hd.
  replace (fexp 53 1024 (53 + (e - 11 + 1)) - (e - 11 + 1)) with 0
    by (unfold fexp, emin; lia).
  cbn [shr shr_record_of_loc shr_m].
  assert (L : (e - 11 + 1 <=? 1024 - 53) = true) by (apply Z.leb_le; lia).
  rewrite L. f_equal. lia.
Qed.

Lemma pos_iter_xO (p k : positive) :
  Zpos (Pos.iter xO p k) = Zpos p * 2 ^ Zpos k.
Proof.
  induction k as [| k IH] using Pos.peano_ind.
  - simpl. lia.
  - rewrite Pos.iter_succ, Pos2Z.inj_xO, IH, Pos2Z.inj_succ, Z.pow_succ_r by lia.
    lia.
Qed.

Lemma binary_round_int (s : bool) (p : positive) :
  Zpos p <= 2 ^ 63 ->
  exists m e,
    binary_round 53 1024 s p 0 = S754_finite s m e
    /\ -52 <= e <= 12
    /\ 2 ^ 52 <= Zpos m < 2 ^ 53
    /\ Z.abs (Zpos m * 2 ^ (e + 52) - Zpos p * 2 ^ 52) <= 2 ^ (e + 52).
Proof.
  intros Hp. unfold binary_round.
  pose proof (digits2_pos_bounds p) as B.
  set (d := Zpos (digits2_pos p)) in *.
  assert (Hd : 1 <= d <= 64).
  { split; [unfold d; lia |].
    destruct (Z_le_gt_dec d 64) as [H | H]; [exact H |].
    assert (2 ^ 64 <= 2 ^ (d - 1)) by (apply Z.pow_le_mono_r; lia).
    change (2 ^ 64) with (2 * 2 ^ 63) in *. lia. }
  replace (fexp 53 1024 (d + 0)) with (d - 53) by (unfold fexp, emin; lia).
  unfold shl_align.
  destruct (d - 53 - 0) as [| k0 | k0] eqn:Ek.
  - destruct (binary_round_aux_spec s p 0 loc_Exact d eq_refl) as (m & k & E & Hk & Bm & Er);
      try lia.
    rewrite E. exists m, (0 + k). split; [reflexivity |]. split; [lia |].
    split; [exact Bm |].
    replace (0 + k + 52) with (k + 52) by lia.
    rewrite Z.pow_add_r by lia. lia.
  - destruct (binary_round_aux_spec s p 0 loc_Exact d eq_refl) as (m & k & E & Hk & Bm & Er);
      try lia.
    rewrite E. exists m, (0 + k). split; [reflexivity |]. split; [lia |].
    split; [exact Bm |].
    replace (0 + k + 52) with (k + 52) by lia.
    rewrite Z.pow_add_r by lia. lia.
  - assert (V : Zpos (Pos.iter xO p k0) = Zpos p * 2 ^ (53 - d))
      by (rewrite pos_iter_xO; f_equal; f_equal; lia).
    assert (P1 : 2 ^ (d - 1) * 2 ^ (53 - d) = 2 ^ 52)
      by (rewrite <- Z.pow_add_r by lia; f_equal; lia).
    assert (P2 : 2 ^ d * 2 ^ (53 - d) = 2 ^ 53)
      by (rewrite <- Z.pow_add_r by lia; f_equal; lia).
    assert (PT : 0 < 2 ^ (53 - d)) by (apply Z.pow_pos_nonneg; lia).
    assert (D' : Zpos (digits2_pos (Pos.iter xO p k0)) = 53).
    { apply digits2_pos_unique. rewrite V. change (53 - 1) with 52. nia. }
    destruct (binary_round_aux_spec s (Pos.iter xO p k0) (d - 53) loc_Exact 53 D')
      as (m & k & E & Hk & Bm & Er); try lia.
    rewrite E. exists m, (d - 53 + k). split; [reflexivity |]. split; [lia |].
    split; [exact Bm |].
    rewrite V in Er.
    set (T := 2 ^ (d - 1)) in *.
    assert (PT' : 0 < T) by (apply Z.pow_pos_nonneg; lia).
    replace (d - 53 + k + 52) with (k + (d - 1)) by lia.
    rewrite Z.pow_add_r by lia. fold T.
    rewrite <- P1. nia.
Qed.

Lemma round_half_even_spec (n d : Z) :
  0 < d -> 2 * Z.abs (round_half_even n d * d - n) <= d.
Proof.
  intros Hd. unfold round_half_even.
  pose proof (Z.div_mod n d ltac:(lia)) as DM.
  pose proof (Z.mod_pos_bound n d Hd) as MB.
  destruct (Z.compare_spec (2 * (n mod d)) d) as [C | C | C];
    [destruct (Z.even (n / d)) |..]; nia.
Qed.

Lemma tolerance_arith (p m1 m2 a e1 k2 : Z) :
  0 < p <= 2 ^ 63 -> -52 <= e1 <= 12 -> 52 <= k2 <= 54 ->
  2 ^ 52 <= m1 < 2 ^ 53 -> 2 ^ 52 <= m2 < 2 ^ 53 ->
  Z.abs (m1 * 2 ^ (e1 + 52) - p * 2 ^ 52) <= 2 ^ (e1 + 52) ->
  - 2 ^ k2 < m2 * 2 ^ k2 - m1 * 6629298651489370 <= 2 ^ k2 ->
  2 * Z.abs (a * 2 ^ (88 - e1 - k2) - m2 * 10000) <= 2 ^ (88 - e1 - k2) ->
  100 * Z.abs (a * 2 ^ 30 - 230 * p) <= 51 * 2 ^ 30.
Proof.
  intros Hp He Hk B1 B2 F1 F2 F3.
  assert (exists n : nat, e1 = Z.of_nat n - 52 /\ (n <= 64)%nat) as (n & -> & Hn)
    by (exists (Z.to_nat (e1 + 52)); lia).
  assert (k2 = 52 \/ k2 = 53 \/ k2 = 54) as [-> | [-> | ->]] by lia;
    do 65 (destruct n as [| n]; [calc_pow; lia |]); lia.
Qed.

Lemma mantissa_digits (m : positive) :
  2 ^ 52 <= Zpos m < 2 ^ 53 -> Zpos (digits2_pos m) = 53.
Proof. intros H. apply digits2_pos_unique. change (53 - 1) with 52. exact H. Qed.

Lemma sizeInGB_scaled (s : bool) (p : positive) (m : positive) (e : Z) :
  binary_round 53 1024 s p 0 = S754_finite s m e ->
  2 ^ 52 <= Zpos m < 2 ^ 53 -> -52 <= e <= 12 ->
  float64_div (float64_div (float64_div (binary_round 53 1024 s p 0) const_1024)
                           const_1024) const_1024
  = S754_finite s m (e - 30).
Proof.
  intros E B He. rewrite E.
  rewrite !div_1024 by (try apply mantissa_digits; try exact B; lia).
  f_equal. lia.
Qed.

Lemma savings_of_magnitude (s : bool) (p : positive) :
  Zpos p <= 2 ^ 63 ->
  exists a,
    fmt4 (float64_mul
            (float64_div (float64_div (float64_div (binary_round 53 1024 s p 0)
                                                   const_1024) const_1024)
                         const_1024)
            pricePerGB)
    = Some (if s then - a else a)
    /\ 100 * Z.abs (a * 2 ^ 30 - 230 * Zpos p) <= 51 * 2 ^ 30.
Proof.
  intros Hp.
  destruct (binary_round_int s p Hp) as (m1 & e1 & E1 & He1 & B1 & F1).
  rewrite (sizeInGB_scaled s p m1 e1 E1 B1 He1).
  change pricePerGB with (S754_finite false 6629298651489370 (-58)).
  unfold float64_mul, SFmul. rewrite Bool.xorb_false_r.
  pose proof (digits2_pos_bounds (m1 * 6629298651489370)) as BP.
  set (d := Zpos (digits2_pos (m1 * 6629298651489370))) in *.
  rewrite Pos2Z.inj_mul in BP.
  assert (Hd : d = 105 \/ d = 106).
  { assert (1 <= d) by (unfold d; lia).
    destruct (Z_le_gt_dec d 104) as [H1 | H1].
    - assert (2 ^ d <= 2 ^ 104) by (apply Z.pow_le_mono_r; lia).
      change (2 ^ 104) with (2 ^ 52 * 2 ^ 52) in *. nia.
    - destruct (Z_le_gt_dec d 106) as [H2 | H2]; [lia |].
      assert (2 ^ 106 <= 2 ^ (d - 1)) by (apply Z.pow_le_mono_r; lia).
      change (2 ^ 106) with (2 ^ 53 * 2 ^ 53) in *. nia. }
  destruct (binary_round_aux_spec s (m1 * 6629298651489370) (e1 - 30 + -58)
              loc_Exact d eq_refl)
    as (m2 & k2 & E2 & Hk2 & B2 & F2); try lia.
  rewrite E2. rewrite Pos2Z.inj_mul in F2.
  unfold fmt4.
  destruct (e1 - 30 + -58 + k2) as [| q | q] eqn:Ee; try lia.
  pose proof (round_half_even_spec (Zpos m2 * 10000) (2 ^ Zpos q)
                ltac:(apply Z.pow_pos_nonneg; lia)) as F3.
  set (a := round_half_even (Zpos m2 * 10000) (2 ^ Zpos q)) in *.
  exists a. split; [reflexivity |].
  replace (Zpos q) with (88 - e1 - k2) in F3 by lia.
  apply (tolerance_arith (Zpos p) (Zpos m1) (Zpos m2) a e1 k2);
    first [exact F3 | lia].
Qed.

Lemma savings_tolerance (z : Z) :
  - 2 ^ 63 <= z <= 2 ^ 63 - 1 ->
  exists a,
    fmt4 (estimatedSavings z) = Some a
    /\ 100 * Z.abs (a * 2 ^ 30 - 230 * z) <= 51 * 2 ^ 30.
Proof.
  intros Hz. unfold estimatedSavings, sizeInGB, float64_of_int64.
  destruct z as [| p | p]; cbn [binary_normalize].
  - exists 0. split; [reflexivity | simpl; lia].
  - destruct (savings_of_magnitude false p ltac:(lia)) as (a & E & T).
    exists a. split; [exact E | exact T].
  - destruct (savings_of_magnitude true p ltac:(lia)) as (a & E & T).
    exists (- a). split; [exact E |].
    replace (- a * 2 ^ 30 - 230 * Z.neg p) with (- (a * 2 ^ 30 - 230 * Zpos p)) by lia.
    rewrite Z.abs_opp. exact T.
Qed.

Lemma binary_round_aux_exact (s : bool) (m : positive) (e : Z) :
  Zpos (digits2_pos m) = 53 -> -1021 <= e <= 971 ->
  binary_round_aux 53 1024 s (Zpos m) e loc_Exact = S754_finite s m e.
Proof.
  intros Hd He. unfold binary_round_aux, shr_fexp. cbn [Zdigits2]. rewrite Hd.
  replace (fexp 53 1024 (53 + e) - e) with 0 by (unfold fexp, emin; lia).
  cbn [shr shr_record_of_loc shr_m loc_of_shr_record round_nearest_even
       Zdigits2].
  rewrite Hd.
  replace (fexp 53 1024 (53 + e) - e) with 0 by (unfold fexp, emin; lia).
  cbn [shr shr_record_of_loc shr_m].
  assert (L : (e <=? 1024 - 53) = true) by (apply Z.leb_le; lia).
  rewrite L. reflexivity.
Qed.

Lemma binary_round_small_int (s : bool) (p : positive) :
  Zpos p < 2 ^ 53 ->
  exists m e,
    binary_round 53 1024 s p 0 = S754_finite s m e
    /\ -52 <= e <= 0
    /\ 2 ^ 52 <= Zpos m < 2 ^ 53
    /\ Zpos m = Zpos p * 2 ^ (- e).
Proof.
  intros Hp. unfold binary_round.
  pose proof (digits2_pos_bounds p) as B.
  set (d := Zpos (digits2_pos p)) in *.
  assert (Hd : 1 <= d <= 53).
  { split; [unfold d; lia |].
    destruct (Z_le_gt_dec d 53) as [H | H]; [exact H |].
    assert (2 ^ 53 <= 2 ^ (d - 1)) by (apply Z.pow_le_mono_r; lia). lia. }
  replace (fexp 53 1024 (d + 0)) with (d - 53) by (unfold fexp, emin; lia).
  unfold shl_align.
  destruct (d - 53 - 0) as [| k0 | k0] eqn:Ek; try lia.
  - assert (d = 53) by lia.
    rewrite binary_round_aux_exact by (fold d; lia).
    exists p, 0. split; [reflexivity |]. split; [lia |].
    replace (d - 1) with 52 in B by lia. replace d with 53 in B by lia.
    split; [exact B | simpl; lia].
  - assert (V : Zpos (Pos.iter xO p k0) = Zpos p * 2 ^ (53 - d))
      by (rewrite pos_iter_xO; f_equal; f_equal; lia).
    assert (P1 : 2 ^ (d - 1) * 2 ^ (53 - d) = 2 ^ 52)
      by (rewrite <- Z.pow_add_r by lia; f_equal; lia).
    assert (P2 : 2 ^ d * 2 ^ (53 - d) = 2 ^ 53)
      by (rewrite <- Z.pow_add_r by lia; f_equal; lia).
    assert (PT : 0 < 2 ^ (53 - d)) by (apply Z.pow_pos_nonneg; lia).
    assert (Bm : 2 ^ 52 <= Zpos (Pos.iter xO p k0) < 2 ^ 53) by (rewrite V; nia).
    rewrite binary_round_aux_exact by (try apply mantissa_digits; try exact Bm; lia).
    exists (Pos.iter xO p k0), (d - 53). split; [reflexivity |].
    split; [lia |]. split; [exact Bm |].
    rewrite V. f_equal. f_equal. lia.
Qed.

(** [float64(z)] and the size in GB of a byte total that is not 0: the same
    mantissa, the exponent 30 less. *)
Lemma sizeInGB_spec (z : Z) :
  in_int64 z -> z <> 0 ->
  exists m e,
    float64_of_int64 z = S754_finite (z <? 0) m e
    /\ sizeInGB z = S754_finite (z <? 0) m (e - 30)
    /\ -52 <= e <= 12
    /\ 2 ^ 52 <= Zpos m < 2 ^ 53
    /\ Z.abs (Zpos m * 2 ^ (e + 52) - Z.abs z * 2 ^ 52) <= 2 ^ (e + 52)
    /\ (Z.abs z < 2 ^ 53 -> e <= 0 /\ Zpos m = Z.abs z * 2 ^ (- e)).
Proof.
  unfold in_int64, int64_min, int64_max. intros Hz Hnz.
  assert (G : forall s p,
             Zpos p <= 2 ^ 63 ->
             exists m e,
               binary_round 53 1024 s p 0 = S754_finite s m e
               /\ float64_div
                    (float64_div
                       (float64_div (binary_round 53 1024 s p 0) const_1024)
                       const_1024) const_1024
                  = S754_finite s m (e - 30)
               /\ -52 <= e <= 12
               /\ 2 ^ 52 <= Zpos m < 2 ^ 53
               /\ Z.abs (Zpos m * 2 ^ (e + 52) - Zpos p * 2 ^ 52)
                  <= 2 ^ (e + 52)
               /\ (Zpos p < 2 ^ 53 -> e <= 0 /\ Zpos m = Zpos p * 2 ^ (- e))).
  { intros s p Hp.
    destruct (binary_round_int s p Hp) as (m & e & E & He & B & F).
    exists m, e. split; [exact E |].
    split; [apply sizeInGB_scaled; assumption |].
    split; [exact He |]. split; [exact B |]. split; [exact F |].
    intros Hs.
    destruct (binary_round_small_int s p Hs) as (m' & e' & E' & He' & _ & V).
    rewrite E in E'. injection E' as -> ->. split; [lia | exact V]. }
  unfold sizeInGB, float64_of_int64.
  destruct z as [| p | p]; [contradiction | |]; cbn [binary_normalize Z.abs].
  - change (Zpos p <? 0) with false. apply G. lia.
  - change (Z.neg p <? 0) with true. apply G. lia.
Qed.

(** The constant [0.023] as a [float64]: within half a unit in the last place
    of 23/1000. *)
Lemma pricePerGB_nearest :
  pricePerGB = S754_finite false 6629298651489370 (-58)
  /\ 2 * Z.abs (1000 * 6629298651489370 - 23 * 2 ^ 58) <= 1000.
Proof. split; [vm_compute; reflexivity | vm_compute; discriminate]. Qed.

Section Properties.

Variable S3 : Type.
Variable DeleteObject : S3 -> string -> option string -> S3 * option error.
Variable now : Time.
Variable AddDate : Time -> Z -> Z -> Z -> Time.

Implicit Types (s : State S3) (obj : Object) (t cutoff : Time)
  (bucket : string) (isDryRun isReport : bool).

(** *** One record *)

Lemma scanObject_nil_time bucket cutoff isDryRun isReport obj s :
  LastModified obj = None ->
  scanObject DeleteObject bucket cutoff isDryRun isReport obj s
  = (Stop Panic, s).
Proof. intros H. unfold scanObject, bind, deref. rewrite H. reflexivity. Qed.

Lemma scanObject_fresh bucket cutoff isDryRun isReport obj t s :
  LastModified obj = Some t -> cutoff <= t ->
  scanObject DeleteObject bucket cutoff isDryRun isReport obj s = (Val tt, s).
Proof.
  intros H Ht. unfold scanObject, bind, deref, Before. rewrite H.
  destruct (Z.ltb_spec t cutoff); [lia | reflexivity].
Qed.

Lemma scanObject_stale bucket cutoff isDryRun isReport obj t s :
  LastModified obj = Some t -> t < cutoff ->
  scanObject DeleteObject bucket cutoff isDryRun isReport obj s
  = staleObject DeleteObject bucket isDryRun isReport obj t s.
Proof.
  intros H Ht. unfold scanObject, bind, deref, Before. rewrite H.
  destruct (Z.ltb_spec t cutoff); [reflexivity | lia].
Qed.

Lemma staleObject_report bucket isDryRun obj t s :
  staleObject DeleteObject bucket isDryRun true obj t s
  = (Val tt, counted obj s).
Proof.
  unfold staleObject, bind, incStale, addSize, ret, counted.
  destruct (Size obj); reflexivity.
Qed.

Lemma staleObject_dry bucket obj t s :
  staleObject DeleteObject bucket true false obj t s
  = match Key obj with
    | Some k =>
        (Val tt,
         mkState (staleCount (counted obj s)) (totalSize (counted obj s))
                 (deletedCount s) (s3 s)
                 (out s ++ [DryRunLine k t (Size obj)]))
    | None => (Stop Panic, counted obj s)
    end.
Proof.
  unfold staleObject, bind, incStale, addSize, ret, counted, deref, emit.
  destruct (Size obj), (Key obj); reflexivity.
Qed.

Lemma staleObject_delete bucket obj t s :
  staleObject DeleteObject bucket false false obj t s
  = let (b, err) := DeleteObject (s3 s) bucket (Key obj) in
    let tr := out s ++ [DeleteCall bucket (Key obj) err] in
    let n := staleCount (counted obj s) in
    let sz := totalSize (counted obj s) in
    match Key obj, err with
    | None, _ => (Stop Panic, mkState n sz (deletedCount s) b tr)
    | Some k, Some e =>
        (Val tt, mkState n sz (deletedCount s) b (tr ++ [DeleteWarn k e]))
    | Some k, None =>
        (Val tt, mkState n sz (wrap64 (deletedCount s + 1)) b
                         (tr ++ [DeletedLine k]))
    end.
Proof.
  unfold staleObject, bind, incStale, addSize, ret, counted, deref, emit,
    deleteObject, incDeleted.
  destruct (Size obj); simpl;
    destruct (DeleteObject (s3 s) bucket (Key obj)) as [b [e |]];
    destruct (Key obj); reflexivity.
Qed.

(** Whether a record trips the scan is decided by its nil pointers. *)
Lemma scanObject_result bucket cutoff isDryRun isReport obj s :
  fst (scanObject DeleteObject bucket cutoff isDryRun isReport obj s)
  = if derefSafe cutoff isReport obj then Val tt else Stop Panic.
Proof.
  unfold derefSafe. destruct (LastModified obj) as [t |] eqn:Ht.
  - destruct (Z.ltb_spec t cutoff) as [Hlt | Hge].
    + rewrite (scanObject_stale _ _ _ _ _ _ _ Ht Hlt).
      destruct isReport; [rewrite staleObject_report; reflexivity |].
      destruct isDryRun.
      * rewrite staleObject_dry. destruct (Key obj); reflexivity.
      * rewrite staleObject_delete.
        destruct (DeleteObject (s3 s) bucket (Key obj)) as [b [e |]];
          destruct (Key obj); reflexivity.
    + rewrite (scanObject_fresh _ _ _ _ _ _ _ Ht Hge). reflexivity.
  - rewrite scanObject_nil_time by exact Ht. reflexivity.
Qed.

(** The stale count and the byte total after a record. *)
Lemma scanObject_acc bucket cutoff isDryRun isReport obj s :
  let s' := snd (scanObject DeleteObject bucket cutoff isDryRun isReport obj s) in
  staleCount s'
  = (if isStale cutoff obj then wrap64 (staleCount s + 1) else staleCount s)
  /\ totalSize s'
     = (if isStale cutoff obj
        then match Size obj with
             | Some n => wrap64 (totalSize s + n)
             | None => totalSize s
             end
        else totalSize s).
Proof.
  unfold isStale. destruct (LastModified obj) as [t |] eqn:Ht.
  - destruct (Z.ltb_spec t cutoff) as [Hlt | Hge].
    + rewrite (scanObject_stale _ _ _ _ _ _ _ Ht Hlt).
      destruct isReport; [rewrite staleObject_report; split; reflexivity |].
      destruct isDryRun.
      * rewrite staleObject_dry. destruct (Key obj); split; reflexivity.
      * rewrite staleObject_delete.
        destruct (DeleteObject (s3 s) bucket (Key obj)) as [b [e |]];
          destruct (Key obj); split; reflexivity.
    + rewrite (scanObject_fresh _ _ _ _ _ _ _ Ht Hge). split; reflexivity.
  - rewrite scanObject_nil_time by exact Ht. split; reflexivity.
Qed.

(** *** The loops *)

Lemma scanContents_app bucket cutoff isDryRun isReport (a b : list Object) s :
  scanContents DeleteObject bucket cutoff isDryRun isReport (a ++ b) s
  = bind (scanContents DeleteObject bucket cutoff isDryRun isReport a)
         (fun _ => scanContents DeleteObject bucket cutoff isDryRun isReport b)
         s.
Proof.
  revert s. induction a as [| obj a IH]; intros s; simpl.
  - reflexivity.
  - unfold bind in *.
    destruct (scanObject DeleteObject bucket cutoff isDryRun isReport obj s)
      as [[[] | w] s1]; [apply IH | reflexivity].
Qed.

(** The outer loop is the inner loop over the records of the listed pages,
    then the fatal exit if a page could not be retrieved. *)
Lemma scanPages_seen bucket cutoff isDryRun isReport pages s :
  scanPages DeleteObject bucket cutoff isDryRun isReport pages s
  = bind (scanContents DeleteObject bucket cutoff isDryRun isReport
                       (seen pages))
         (fun _ => match firstError pages with
                   | Some e => fatalf (FatalList e)
                   | None => ret tt
                   end) s.
Proof.
  revert s. induction pages as [| [contents | e] pages IH]; intros s; simpl.
  - reflexivity.
  - unfold bind in *. rewrite scanContents_app. unfold bind.
    destruct (scanContents DeleteObject bucket cutoff isDryRun isReport
                           contents s) as [[[] | w] s1];
      [apply IH | reflexivity].
  - reflexivity.
Qed.

(** The inner loop never ends in [log.Fatalf], and it runs to its end
    exactly when no record trips it. *)
Lemma scanContents_result bucket cutoff isDryRun isReport objs s :
  fst (scanContents DeleteObject bucket cutoff isDryRun isReport objs s)
  = if forallb (derefSafe cutoff isReport) objs then Val tt else Stop Panic.
Proof.
  revert s. induction objs as [| obj objs IH]; intros s; simpl.
  - reflexivity.
  - unfold bind.
    pose proof (scanObject_result bucket cutoff isDryRun isReport obj s) as R.
    destruct (scanObject DeleteObject bucket cutoff isDryRun isReport obj s)
      as [[[] | w] s1]; simpl in R;
      destruct (derefSafe cutoff isReport obj); try discriminate; simpl.
    + apply IH.
    + exact R.
Qed.

Lemma countStale_cons cutoff obj (objs : list Object) :
  countStale cutoff (obj :: objs)
  = (if isStale cutoff obj then 1 else 0) + countStale cutoff objs.
Proof.
  unfold countStale, staleOnes. simpl.
  destruct (isStale cutoff obj); simpl length; lia.
Qed.

Lemma staleBytes_cons cutoff obj (objs : list Object) :
  staleBytes cutoff (obj :: objs)
  = (if isStale cutoff obj then sizeOf obj else 0) + staleBytes cutoff objs.
Proof.
  unfold staleBytes, staleOnes. simpl.
  destruct (isStale cutoff obj); reflexivity.
Qed.

Lemma countStale_bounds cutoff (objs : list Object) :
  0 <= countStale cutoff objs <= Z.of_nat (length objs).
Proof.
  unfold countStale, staleOnes.
  pose proof (filter_length_le (isStale cutoff) objs). lia.
Qed.

(** The stale count and the byte total wherever the inner loop got to its
    end: the count of the stale records and the sum of their sizes, in
    machine arithmetic. *)
Lemma scanContents_acc bucket cutoff isDryRun isReport objs :
  forall s s',
    scanContents DeleteObject bucket cutoff isDryRun isReport objs s
    = (Val tt, s') ->
    in_int64 (staleCount s) -> in_int64 (totalSize s) ->
    staleCount s' = wrap64 (staleCount s + countStale cutoff objs)
    /\ totalSize s' = wrap64 (totalSize s + staleBytes cutoff objs).
Proof.
  induction objs as [| obj objs IH]; intros s s' H Hn Hb; simpl in H.
  - injection H as <-. unfold countStale, staleBytes. simpl.
    rewrite !Z.add_0_r, !wrap64_id by assumption. split; reflexivity.
  - unfold bind in H.
    pose proof (scanObject_acc bucket cutoff isDryRun isReport obj s) as A.
    destruct (scanObject DeleteObject bucket cutoff isDryRun isReport obj s)
      as [[[] | w] s1]; [| discriminate].
    simpl in A. destruct A as [A1 A2].
    assert (Hn1 : in_int64 (staleCount s1)).
    { rewrite A1. destruct (isStale cutoff obj);
        [apply wrap64_range | exact Hn]. }
    assert (Hb1 : in_int64 (totalSize s1)).
    { rewrite A2. destruct (isStale cutoff obj); [| exact Hb].
      destruct (Size obj); [apply wrap64_range | exact Hb]. }
    destruct (IH _ _ H Hn1 Hb1) as [I1 I2].
    rewrite I1, I2, A1, A2, countStale_cons, staleBytes_cons.
    unfold sizeOf.
    destruct (isStale cutoff obj).
    + split.
      * rewrite wrap64_add_l. f_equal. lia.
      * destruct (Size obj).
        -- rewrite wrap64_add_l. f_equal. lia.
        -- f_equal.
    + split; f_equal.
Qed.

(** *** Report-only mode *)

Lemma scanObject_report bucket cutoff isDryRun obj s :
  let s' := snd (scanObject DeleteObject bucket cutoff isDryRun true obj s) in
  out s' = out s /\ s3 s' = s3 s /\ deletedCount s' = deletedCount s.
Proof.
  destruct (LastModified obj) as [t |] eqn:Ht.
  - destruct (Z.ltb_spec t cutoff) as [Hlt | Hge].
    + rewrite (scanObject_stale _ _ _ _ _ _ _ Ht Hlt), staleObject_report.
      repeat split.
    + rewrite (scanObject_fresh _ _ _ _ _ _ _ Ht Hge). repeat split.
  - rewrite scanObject_nil_time by exact Ht. repeat split.
Qed.

Lemma scanContents_report bucket cutoff isDryRun objs :
  forall s,
    let s' := snd (scanContents DeleteObject bucket cutoff isDryRun true
                                objs s) in
    out s' = out s /\ s3 s' = s3 s /\ deletedCount s' = deletedCount s.
Proof.
  induction objs as [| obj objs IH]; intros s; simpl.
  - repeat split.
  - unfold bind.
    pose proof (scanObject_report bucket cutoff isDryRun obj s) as R.
    destruct (scanObject DeleteObject bucket cutoff isDryRun true obj s)
      as [[[] | w] s1]; simpl in R.
    + destruct (IH s1) as (I1 & I2 & I3), R as (R1 & R2 & R3).
      cbv zeta. rewrite I1, I2, I3. auto.
    + exact R.
Qed.

(** *** Dry-run mode *)

Lemma scanObject_dry bucket cutoff obj s :
  let r := scanObject DeleteObject bucket cutoff true false obj s in
  deletedKeys (out (snd r)) = deletedKeys (out s)
  /\ s3 (snd r) = s3 s
  /\ deletedCount (snd r) = deletedCount s
  /\ (fst r = Val tt ->
      count isDryRunLine (out (snd r))
      = count isDryRunLine (out s) + (if isStale cutoff obj then 1 else 0)).
Proof.
  unfold isStale. destruct (LastModified obj) as [t |] eqn:Ht.
  - destruct (Z.ltb_spec t cutoff) as [Hlt | Hge].
    + rewrite (scanObject_stale _ _ _ _ _ _ _ Ht Hlt), staleObject_dry.
      destruct (Key obj); simpl.
      * rewrite deletedKeys_app, count_app. simpl.
        rewrite app_nil_r. repeat split.
      * repeat split. discriminate.
    + rewrite (scanObject_fresh _ _ _ _ _ _ _ Ht Hge). simpl.
      repeat split. lia.
  - rewrite scanObject_nil_time by exact Ht. simpl.
    repeat split. discriminate.
Qed.

Lemma scanContents_dry bucket cutoff objs :
  forall s,
    let r := scanContents DeleteObject bucket cutoff true false objs s in
    deletedKeys (out (snd r)) = deletedKeys (out s)
    /\ s3 (snd r) = s3 s
    /\ deletedCount (snd r) = deletedCount s
    /\ (fst r = Val tt ->
        count isDryRunLine (out (snd r))
        = count isDryRunLine (out s) + countStale cutoff objs).
Proof.
  induction objs as [| obj objs IH]; intros s; simpl.
  - repeat split. unfold countStale. simpl. lia.
  - unfold bind.
    pose proof (scanObject_dry bucket cutoff obj s) as R.
    destruct (scanObject DeleteObject bucket cutoff true false obj s)
      as [[[] | w] s1]; simpl in R.
    + destruct (IH s1) as (I1 & I2 & I3 & I4), R as (R1 & R2 & R3 & R4).
      cbv zeta. rewrite I1, I2, I3. repeat split; try assumption.
      intros H. rewrite (I4 H), (R4 eq_refl), countStale_cons. lia.
    + destruct R as (R1 & R2 & R3 & _). repeat split; try assumption.
      discriminate.
Qed.

(** *** Live mode *)

Lemma count_delete_split (tr : list Event) :
  count isDeleteCall tr = count isOkDelete tr + count isFailedDelete tr.
Proof.
  induction tr as [| e tr IH]; [reflexivity |].
  rewrite !count_cons, IH.
  destruct e as [| | | | ? ? [x |] | | | | | | | | | | |];
    cbn [isDeleteCall isOkDelete isFailedDelete]; lia.
Qed.

Lemma scanObject_live bucket cutoff obj s :
  let r := scanObject DeleteObject bucket cutoff false false obj s in
  fst r = Val tt ->
  deletedKeys (out (snd r))
  = deletedKeys (out s) ++ (if isStale cutoff obj then [Key obj] else [])
  /\ ((count isOkDelete (out (snd r)) = count isOkDelete (out s)
       /\ deletedCount (snd r) = deletedCount s)
      \/ (count isOkDelete (out (snd r)) = count isOkDelete (out s) + 1
          /\ deletedCount (snd r) = wrap64 (deletedCount s + 1))).
Proof.
  unfold isStale. destruct (LastModified obj) as [t |] eqn:Ht.
  - destruct (Z.ltb_spec t cutoff) as [Hlt | Hge].
    + rewrite (scanObject_stale _ _ _ _ _ _ _ Ht Hlt), staleObject_delete.
      destruct (DeleteObject (s3 s) bucket (Key obj)) as [b [e |]];
        destruct (Key obj) as [k |]; simpl; try discriminate; intros _;
        rewrite !deletedKeys_app, !count_app; simpl;
        rewrite ?app_nil_r; (split; [reflexivity |]).
      * left. split; [rewrite !count_cons; cbn [isOkDelete count filter length Z.of_nat]; lia | reflexivity].
      * right. split; [rewrite !count_cons; cbn [isOkDelete count filter length Z.of_nat]; lia | reflexivity].
    + rewrite (scanObject_fresh _ _ _ _ _ _ _ Ht Hge). simpl. intros _.
      rewrite app_nil_r. split; [reflexivity | left; split; reflexivity].
  - rewrite scanObject_nil_time by exact Ht. simpl. discriminate.
Qed.

Lemma scanContents_live bucket cutoff objs :
  forall s s',
    scanContents DeleteObject bucket cutoff false false objs s
    = (Val tt, s') ->
    in_int64 (deletedCount s) ->
    deletedKeys (out s')
    = deletedKeys (out s) ++ map Key (staleOnes cutoff objs)
    /\ count isOkDelete (out s) <= count isOkDelete (out s')
    /\ deletedCount s'
       = wrap64 (deletedCount s
                 + (count isOkDelete (out s') - count isOkDelete (out s))).
Proof.
  induction objs as [| obj objs IH]; intros s s' H Hd; simpl in H.
  - injection H as <-. simpl. rewrite app_nil_r, Z.sub_diag, Z.add_0_r.
    rewrite wrap64_id by exact Hd. repeat split. lia.
  - unfold bind in H.
    pose proof (scanObject_live bucket cutoff obj s) as R.
    destruct (scanObject DeleteObject bucket cutoff false false obj s)
      as [[[] | w] s1]; [| discriminate].
    simpl in R. destruct (R eq_refl) as [K C]. clear R.
    assert (Hd1 : in_int64 (deletedCount s1)).
    { destruct C as [[_ ->] | [_ ->]]; [exact Hd | apply wrap64_range]. }
    destruct (IH _ _ H Hd1) as (I1 & I2 & I3).
    rewrite I1, K, <- app_assoc. unfold staleOnes. simpl.
    split; [destruct (isStale cutoff obj); reflexivity |].
    destruct C as [[C1 C2] | [C1 C2]]; rewrite I3, C2.
    + split; [lia |]. f_equal. lia.
    + split; [lia |]. rewrite wrap64_add_l. f_equal. lia.
Qed.

(** *** The whole of [runScan] *)

Lemma summary_lines isDryRun isReport s :
  summary isDryRun isReport s
  = (Val tt, addOut s (summaryLines isDryRun isReport (staleCount s)
                                    (totalSize s) (deletedCount s))).
Proof.
  unfold summary, bind, emit, getStale, getTotal, getDeleted, addOut,
    summaryLines.
  destruct isReport; [| destruct isDryRun]; simpl;
    repeat rewrite <- app_assoc; reflexivity.
Qed.

(** After the configuration is loaded: the banner, the records of the
    listed pages, then the fatal exit or the summary. *)
Lemma runScan_loaded pages bucket days isDryRun isReport s :
  runScan DeleteObject now AddDate None pages bucket days isDryRun isReport s
  = let cutoff := cutoffOf now AddDate days in
    match scanContents DeleteObject bucket cutoff isDryRun isReport
                       (seen pages)
                       (addOut s [ScanBanner bucket cutoff days]) with
    | (Stop w, s1) => (Stop w, s1)
    | (Val _, s1) =>
        match firstError pages with
        | Some e => (Stop Fatal, addOut s1 [FatalList e])
        | None =>
            (Val tt,
             addOut s1 (summaryLines isDryRun isReport (staleCount s1)
                                     (totalSize s1) (deletedCount s1)))
        end
    end.
Proof.
  unfold runScan. cbv zeta. unfold bind at 1. unfold emit at 1.
  fold (addOut s [ScanBanner bucket (cutoffOf now AddDate days) days]).
  unfold bind. rewrite scanPages_seen. unfold bind.
  destruct (scanContents DeleteObject bucket (cutoffOf now AddDate days)
              isDryRun isReport (seen pages)
              (addOut s [ScanBanner bucket (cutoffOf now AddDate days) days]))
    as [[[] | w] s1]; [| reflexivity].
  destruct (firstError pages) as [e |]; [reflexivity |].
  unfold ret. apply summary_lines.
Qed.

Lemma scanCmd_loaded pages bucket days isDryRun isReport (b : S3) :
  scanCmd DeleteObject now AddDate None pages bucket days isDryRun isReport b
  = let cutoff := cutoffOf now AddDate days in
    match scanContents DeleteObject bucket cutoff isDryRun isReport
                       (seen pages) (entry b bucket cutoff days) with
    | (Stop Panic, s1) => (Panicked, s1)
    | (Stop Fatal, s1) => (FatalExit, s1)
    | (Val _, s1) =>
        match firstError pages with
        | Some e => (FatalExit, addOut s1 [FatalList e])
        | None =>
            (Returned,
             addOut s1 (summaryLines isDryRun isReport (staleCount s1)
                                     (totalSize s1) (deletedCount s1)))
        end
    end.
Proof.
  unfold scanCmd. rewrite runScan_loaded. cbv zeta. unfold entry.
  destruct (scanContents DeleteObject bucket (cutoffOf now AddDate days)
              isDryRun isReport (seen pages)
              (addOut (start b)
                      [ScanBanner bucket (cutoffOf now AddDate days) days]))
    as [[[] | []] s1]; try reflexivity.
  destruct (firstError pages); reflexivity.
Qed.

(** *** Fresh records *)




(** *** No deletion outside live mode *)

(** C2. In report-only mode [DeleteObject] is never called, whatever the
    dry-run flag, the answer of the configuration loader and the listing:
    the trace of the process has no delete call and the backend is in the
    state it started in. *)
Theorem C2_report_only_never_deletes :
  forall loadErr pages bucket days isDryRun (b : S3),
    (forall e,
        In e (out (snd (scanCmd DeleteObject now AddDate loadErr pages
                                bucket days isDryRun true b))) ->
        isDeleteCall e = false)
    /\ s3 (snd (scanCmd DeleteObject now AddDate loadErr pages bucket days
                        isDryRun true b)) = b.
Proof.
  intros loadErr pages bucket days isDryRun b.
  rewrite <- deletedKeys_nil_iff.
  destruct loadErr as [e |]; [split; reflexivity |].
  rewrite scanCmd_loaded. cbv zeta.
  pose proof (scanContents_report bucket (cutoffOf now AddDate days)
                isDryRun (seen pages)
                (entry b bucket (cutoffOf now AddDate days) days)) as R.
  cbv zeta in R.
  destruct (scanContents DeleteObject bucket (cutoffOf now AddDate days)
              isDryRun true (seen pages)
              (entry b bucket (cutoffOf now AddDate days) days))
    as [[[] | []] s1]; simpl in R; destruct R as (R1 & R2 & R3).
  - destruct (firstError pages); simpl;
      rewrite deletedKeys_app, R1; simpl; auto.
  - simpl. rewrite R1. auto.
  - simpl. rewrite R1. auto.
Qed.

Lemma wrap64_count cutoff (objs : list Object) :
  Z.of_nat (length objs) <= int64_max ->
  wrap64 (countStale cutoff objs) = countStale cutoff objs.
Proof.
  intros H. apply wrap64_id. pose proof (countStale_bounds cutoff objs).
  unfold in_int64, int64_min, int64_max in *. lia.
Qed.

(** C3. With dry-run set and report-only unset, [DeleteObject] is never
    called, for every listing.  In every run that does not end in a panic
    the number of [DRY RUN] lines is the final stale count (for listings of
    at most 2^63 - 1 records, which an [int] can count), and the summary
    of a completed run reports that number. *)
Theorem C3_dry_run_lines_equal_stale_count :
  forall loadErr pages bucket days (b : S3),
    (forall e,
        In e (out (snd (scanCmd DeleteObject now AddDate loadErr pages
                                bucket days true false b))) ->
        isDeleteCall e = false)
    /\ s3 (snd (scanCmd DeleteObject now AddDate loadErr pages bucket days
                        true false b)) = b
    /\ (fst (scanCmd DeleteObject now AddDate loadErr pages bucket days
                     true false b) <> Panicked ->
        Z.of_nat (length (seen pages)) <= int64_max ->
        count isDryRunLine
              (out (snd (scanCmd DeleteObject now AddDate loadErr pages
                                 bucket days true false b)))
        = staleCount (snd (scanCmd DeleteObject now AddDate loadErr pages
                                   bucket days true false b))
        /\ (fst (scanCmd DeleteObject now AddDate loadErr pages bucket days
                         true false b) = Returned ->
            exists sz,
              In (DrySummary
                    (count isDryRunLine
                       (out (snd (scanCmd DeleteObject now AddDate loadErr
                                          pages bucket days true false b))))
                    sz)
                 (out (snd (scanCmd DeleteObject now AddDate loadErr pages
                                    bucket days true false b))))).
Proof.
  intros loadErr pages bucket days b.
  rewrite <- deletedKeys_nil_iff.
  destruct loadErr as [e |].
  { repeat split; try reflexivity. discriminate. }
  rewrite scanCmd_loaded. cbv zeta.
  set (cutoff := cutoffOf now AddDate days).
  pose proof (scanContents_dry bucket cutoff (seen pages)
                (entry b bucket cutoff days)) as R.
  pose proof (scanContents_acc bucket cutoff true false (seen pages)
                (entry b bucket cutoff days)) as A.
  pose proof (scanContents_result bucket cutoff true false (seen pages)
                (entry b bucket cutoff days)) as F.
  cbv zeta in R.
  destruct (scanContents DeleteObject bucket cutoff true false (seen pages)
              (entry b bucket cutoff days)) as [[[] | []] s1];
    simpl in R, F; destruct R as (R1 & R2 & R3 & R4).
  - specialize (R4 eq_refl).
    destruct (A s1 eq_refl in_int64_0 in_int64_0) as [A1 _]. simpl in A1.
    destruct (firstError pages) as [e |]; simpl;
      rewrite deletedKeys_app, R1; (split; [reflexivity |]);
      (split; [exact R2 |]); intros _ Hlen;
      rewrite count_app, R4, A1, wrap64_count by exact Hlen;
      (split; [cbn; lia |]).
    + discriminate.
    + intros _. exists (totalSize s1). apply in_or_app. right.
      right. left. f_equal. cbn. lia.
  - destruct (forallb (derefSafe cutoff false) (seen pages)); discriminate.
  - simpl. rewrite R1. split; [reflexivity |]. split; [exact R2 |].
    intros H. contradiction.
Qed.

Lemma count_deletedKeys (tr : list Event) :
  count isDeleteCall tr = Z.of_nat (length (deletedKeys tr)).
Proof.
  induction tr as [| e tr IH]; [reflexivity |].
  rewrite count_cons, IH.
  destruct e; cbn [isDeleteCall deletedKeys length]; lia.
Qed.

(** C4. With dry-run and report-only both unset, in every run that does
    not end in a panic (listings of at most 2^63 - 1 records): the keys
    [DeleteObject] was called with are the keys of the stale records of the
    listed pages, each once and in order; the stale count is the number of
    calls and the deleted count the number of calls that succeeded, so that
    deleted count <= stale count, strictly exactly when a call failed. *)
Theorem C4_live_run_deletes_each_stale_record_once :
  forall pages bucket days (b : S3),
    fst (scanCmd DeleteObject now AddDate None pages bucket days
                 false false b) <> Panicked ->
    Z.of_nat (length (seen pages)) <= int64_max ->
    deletedKeys (out (snd (scanCmd DeleteObject now AddDate None pages
                                   bucket days false false b)))
    = map Key (staleOnes (cutoffOf now AddDate days) (seen pages))
    /\ staleCount (snd (scanCmd DeleteObject now AddDate None pages bucket
                                days false false b))
       = count isDeleteCall
               (out (snd (scanCmd DeleteObject now AddDate None pages
                                  bucket days false false b)))
    /\ deletedCount (snd (scanCmd DeleteObject now AddDate None pages bucket
                                  days false false b))
       = count isOkDelete
               (out (snd (scanCmd DeleteObject now AddDate None pages
                                  bucket days false false b)))
    /\ deletedCount (snd (scanCmd DeleteObject now AddDate None pages bucket
                                  days false false b))
       <= staleCount (snd (scanCmd DeleteObject now AddDate None pages
                                   bucket days false false b))
    /\ (deletedCount (snd (scanCmd DeleteObject now AddDate None pages
                                   bucket days false false b))
        < staleCount (snd (scanCmd DeleteObject now AddDate None pages
                                   bucket days false false b))
        <-> exists e,
            In e (out (snd (scanCmd DeleteObject now AddDate None pages
                                    bucket days false false b)))
            /\ isFailedDelete e = true).
Proof.
  intros pages bucket days b.
  rewrite <- count_pos_iff.
  rewrite scanCmd_loaded. cbv zeta.
  set (cutoff := cutoffOf now AddDate days).
  pose proof (scanContents_live bucket cutoff (seen pages)
                (entry b bucket cutoff days)) as L.
  pose proof (scanContents_acc bucket cutoff false false (seen pages)
                (entry b bucket cutoff days)) as A.
  pose proof (scanContents_result bucket cutoff false false (seen pages)
                (entry b bucket cutoff days)) as F.
  destruct (scanContents DeleteObject bucket cutoff false false (seen pages)
              (entry b bucket cutoff days)) as [[[] | []] s1]; simpl in F.
  - intros _ Hlen.
    destruct (A s1 eq_refl in_int64_0 in_int64_0) as [A1 _].
    destruct (L s1 eq_refl in_int64_0) as (L1 & L2 & L3).
    simpl in A1, L1, L3.
    assert (C : count isDeleteCall (out s1) = countStale cutoff (seen pages)).
    { rewrite count_deletedKeys, L1, length_map. reflexivity. }
    rewrite wrap64_count in A1 by exact Hlen.
    pose proof (count_delete_split (out s1)) as Sp.
    pose proof (count_nonneg isOkDelete (out s1)) as P1.
    pose proof (count_nonneg isFailedDelete (out s1)) as P2.
    pose proof (countStale_bounds cutoff (seen pages)) as Bd.
    assert (O : count isOkDelete [ScanBanner bucket cutoff days] = 0)
      by reflexivity.
    rewrite O, wrap64_id in L3
      by (unfold in_int64, int64_min, int64_max in *; lia).
    destruct (firstError pages) as [e |]; simpl;
      rewrite deletedKeys_app, !count_app, L1, app_nil_r;
      cbn [count filter isDeleteCall isOkDelete isFailedDelete length
           Z.of_nat summaryLines];
      repeat split; try lia.
  - destruct (forallb (derefSafe cutoff false) (seen pages)); discriminate.
  - simpl. intros H. contradiction.
Qed.

(** *** The byte total *)

(** C5 (amended). At every point of the scan, that is after any number
    [seenSoFar] of records processed without a panic, the byte total is the
    sum of the sizes of the stale records seen so far that carry a size,
    reduced to [int64] by two's-complement wrap-around; it is that sum
    itself whenever the sum is an [int64].  A stale record with a nil size
    increments the stale count and leaves the byte total as it was.  The
    state [s] is the one in which the loop goes on with whatever records
    [todo] are left. *)
Theorem C5_byte_total_is_the_int64_sum_of_stale_sizes :
  forall bucket cutoff days isDryRun isReport (b : S3) seenSoFar s,
    scanContents DeleteObject bucket cutoff isDryRun isReport seenSoFar
                 (entry b bucket cutoff days) = (Val tt, s) ->
    totalSize s = wrap64 (staleBytes cutoff seenSoFar)
    /\ (in_int64 (staleBytes cutoff seenSoFar) ->
        totalSize s = staleBytes cutoff seenSoFar)
    /\ (forall obj,
           isStale cutoff obj = true -> Size obj = None ->
           staleCount (snd (scanObject DeleteObject bucket cutoff isDryRun
                                       isReport obj s))
           = wrap64 (staleCount s + 1)
           /\ totalSize (snd (scanObject DeleteObject bucket cutoff isDryRun
                                         isReport obj s))
              = totalSize s)
    /\ (forall todo,
           scanContents DeleteObject bucket cutoff isDryRun isReport
                        (seenSoFar ++ todo) (entry b bucket cutoff days)
           = scanContents DeleteObject bucket cutoff isDryRun isReport todo s).
Proof.
  intros bucket cutoff days isDryRun isReport b seenSoFar s H.
  destruct (scanContents_acc _ _ _ _ _ _ _ H in_int64_0 in_int64_0)
    as [_ A].
  simpl in A. split; [exact A |]. split; [| split].
  - intros R. rewrite A. apply wrap64_id. exact R.
  - intros obj St Sz.
    pose proof (scanObject_acc bucket cutoff isDryRun isReport obj s) as O.
    cbv zeta in O. rewrite St, Sz in O. exact O.
  - intros todo. rewrite scanContents_app. unfold bind. rewrite H.
    reflexivity.
Qed.

(** *** A delete that fails *)

(** C6. In live mode, when [DeleteObject] answers with an error for a stale
    record: the call is made once, a warning with the key and the error
    follows it, the record's turn ends normally with the deleted count as
    it was (the stale count and the byte total are those of any stale
    record), and the loop goes on with the next record. *)
Theorem C6_failed_delete_is_logged_and_skipped :
  forall bucket cutoff obj t k e (b' : S3) s rest,
    LastModified obj = Some t -> t < cutoff -> Key obj = Some k ->
    DeleteObject (s3 s) bucket (Some k) = (b', Some e) ->
    scanObject DeleteObject bucket cutoff false false obj s
    = (Val tt,
       mkState (wrap64 (staleCount s + 1))
               (match Size obj with
                | Some n => wrap64 (totalSize s + n)
                | None => totalSize s
                end)
               (deletedCount s) b'
               (out s ++ [DeleteCall bucket (Some k) (Some e);
                          DeleteWarn k e]))
    /\ scanContents DeleteObject bucket cutoff false false (obj :: rest) s
       = scanContents DeleteObject bucket cutoff false false rest
           (mkState (wrap64 (staleCount s + 1))
                    (match Size obj with
                     | Some n => wrap64 (totalSize s + n)
                     | None => totalSize s
                     end)
                    (deletedCount s) b'
                    (out s ++ [DeleteCall bucket (Some k) (Some e);
                               DeleteWarn k e])).
Proof.
  intros bucket cutoff obj t k e b' s rest Ht Hlt Hk Hd.
  assert (E : scanObject DeleteObject bucket cutoff false false obj s
              = (Val tt,
                 mkState (wrap64 (staleCount s + 1))
                   (match Size obj with
                    | Some n => wrap64 (totalSize s + n)
                    | None => totalSize s
                    end)
                   (deletedCount s) b'
                   (out s ++ [DeleteCall bucket (Some k) (Some e);
                              DeleteWarn k e]))).
  { rewrite (scanObject_stale _ _ _ _ _ _ _ Ht Hlt), staleObject_delete.
    rewrite Hk, Hd. simpl. rewrite <- app_assoc. reflexivity. }
  split; [exact E |].
  simpl. unfold bind. rewrite E. reflexivity.
Qed.

(** *** A page that cannot be listed *)

Lemma seen_prefix (pre : list (list Object)) e rest :
  seen (map PageOk pre ++ PageErr e :: rest) = concat pre
  /\ firstError (map PageOk pre ++ PageErr e :: rest) = Some e.
Proof.
  induction pre as [| c pre [IH1 IH2]]; simpl.
  - split; reflexivity.
  - rewrite IH1, IH2. split; reflexivity.
Qed.

Lemma scanObject_no_summary bucket cutoff isDryRun isReport obj s :
  count isSummary
        (out (snd (scanObject DeleteObject bucket cutoff isDryRun isReport
                              obj s)))
  = count isSummary (out s).
Proof.
  destruct (LastModified obj) as [t |] eqn:Ht.
  - destruct (Z.ltb_spec t cutoff) as [Hlt | Hge].
    + rewrite (scanObject_stale _ _ _ _ _ _ _ Ht Hlt).
      destruct isReport; [rewrite staleObject_report; reflexivity |].
      destruct isDryRun.
      * rewrite staleObject_dry. destruct (Key obj); simpl;
          rewrite ?count_app; cbn; lia.
      * rewrite staleObject_delete.
        destruct (DeleteObject (s3 s) bucket (Key obj)) as [b [e |]];
          destruct (Key obj); simpl; rewrite ?count_app; cbn; lia.
    + rewrite (scanObject_fresh _ _ _ _ _ _ _ Ht Hge). reflexivity.
  - rewrite scanObject_nil_time by exact Ht. reflexivity.
Qed.

Lemma scanContents_no_summary bucket cutoff isDryRun isReport objs :
  forall s,
    count isSummary
          (out (snd (scanContents DeleteObject bucket cutoff isDryRun
                                  isReport objs s)))
    = count isSummary (out s).
Proof.
  induction objs as [| obj objs IH]; intros s; simpl; [reflexivity |].
  unfold bind.
  pose proof (scanObject_no_summary bucket cutoff isDryRun isReport obj s)
    as R.
  destruct (scanObject DeleteObject bucket cutoff isDryRun isReport obj s)
    as [[[] | w] s1]; simpl in R; [rewrite IH |]; exact R.
Qed.

Lemma count_zero_none (p : Event -> bool) (tr : list Event) :
  count p tr = 0 -> forall e, In e tr -> p e = false.
Proof.
  intros H e Hin. destruct (p e) eqn:E; [| reflexivity].
  assert (0 < count p tr) by (apply count_pos_iff; exists e; auto). lia.
Qed.

(** C7. When [NextPage] fails, after the pages [pre] that were listed: the
    run does not return and prints no line of the report or summary; it is
    the same run whatever the paginator would have answered later, so no
    further record is processed; and unless a record of [pre] had already
    ended it in a panic, it ends in [log.Fatalf], the diagnostic being the
    last event after those of the records of [pre]. *)
Theorem C7_listing_failure_is_fatal :
  forall (pre : list (list Object)) e rest bucket days isDryRun isReport
         (b : S3),
    scanCmd DeleteObject now AddDate None
            (map PageOk pre ++ PageErr e :: rest)
            bucket days isDryRun isReport b
    = scanCmd DeleteObject now AddDate None (map PageOk pre ++ [PageErr e])
              bucket days isDryRun isReport b
    /\ fst (scanCmd DeleteObject now AddDate None
                    (map PageOk pre ++ PageErr e :: rest)
                    bucket days isDryRun isReport b) <> Returned
    /\ (forall ev,
           In ev (out (snd (scanCmd DeleteObject now AddDate None
                                    (map PageOk pre ++ PageErr e :: rest)
                                    bucket days isDryRun isReport b))) ->
           isSummary ev = false)
    /\ (forallb (derefSafe (cutoffOf now AddDate days) isReport)
                (concat pre) = true ->
        exists s1,
          scanContents DeleteObject bucket (cutoffOf now AddDate days)
                       isDryRun isReport (concat pre)
                       (entry b bucket (cutoffOf now AddDate days) days)
          = (Val tt, s1)
          /\ scanCmd DeleteObject now AddDate None
                     (map PageOk pre ++ PageErr e :: rest)
                     bucket days isDryRun isReport b
             = (FatalExit, addOut s1 [FatalList e])).
Proof.
  intros pre e rest bucket days isDryRun isReport b.
  rewrite !scanCmd_loaded. cbv zeta.
  destruct (seen_prefix pre e rest) as [-> ->].
  destruct (seen_prefix pre e []) as [-> ->].
  set (cutoff := cutoffOf now AddDate days).
  pose proof (scanContents_result bucket cutoff isDryRun isReport
                (concat pre) (entry b bucket cutoff days)) as F.
  pose proof (scanContents_no_summary bucket cutoff isDryRun isReport
                (concat pre) (entry b bucket cutoff days)) as N.
  destruct (scanContents DeleteObject bucket cutoff isDryRun isReport
              (concat pre) (entry b bucket cutoff days))
    as [[[] | []] s1]; simpl in F, N.
  - split; [reflexivity |]. split; [discriminate |]. split.
    + apply count_zero_none. simpl. rewrite count_app, N. reflexivity.
    + intros _. exists s1. split; reflexivity.
  - destruct (forallb (derefSafe cutoff isReport) (concat pre));
      discriminate.
  - split; [reflexivity |]. split; [discriminate |]. split.
    + apply count_zero_none. simpl. rewrite N. reflexivity.
    + intros W. rewrite W in F. discriminate.
Qed.

(** *** Exit status *)

(** C9. When the configuration loads, every page is listed and no record
    trips the scan, [runScan] returns to [main] and the process exits with
    status 0.  A failed configuration load and a failed page listing end
    the process inside [runScan], in [log.Fatalf]: [runScan] does not
    return, the diagnostic is the last thing the process does, and the
    exit status is the one of [log.Fatalf], the same for both failures and
    for every error value. *)
Theorem C9_exit_status :
  forall pages bucket days isDryRun isReport (b : S3),
    (firstError pages = None ->
     forallb (derefSafe (cutoffOf now AddDate days) isReport) (seen pages)
     = true ->
     fst (scanCmd DeleteObject now AddDate None pages bucket days isDryRun
                  isReport b) = Returned
     /\ exitCode (fst (scanCmd DeleteObject now AddDate None pages bucket
                               days isDryRun isReport b)) = 0)
    /\ (forall e,
           scanCmd DeleteObject now AddDate (Some e) pages bucket days
                   isDryRun isReport b
           = (FatalExit, addOut (start b) [FatalConfig e])
           /\ exitCode (fst (scanCmd DeleteObject now AddDate (Some e) pages
                                     bucket days isDryRun isReport b)) = 1)
    /\ (forall e,
           firstError pages = Some e ->
           forallb (derefSafe (cutoffOf now AddDate days) isReport)
                   (seen pages) = true ->
           fst (scanCmd DeleteObject now AddDate None pages bucket days
                        isDryRun isReport b) = FatalExit
           /\ (exists tr,
                  out (snd (scanCmd DeleteObject now AddDate None pages
                                    bucket days isDryRun isReport b))
                  = tr ++ [FatalList e])
           /\ exitCode (fst (scanCmd DeleteObject now AddDate None pages
                                     bucket days isDryRun isReport b)) = 1).
Proof.
  intros pages bucket days isDryRun isReport b.
  split; [| split].
  - intros E W. rewrite scanCmd_loaded. cbv zeta.
    pose proof (scanContents_result bucket (cutoffOf now AddDate days)
                  isDryRun isReport (seen pages)
                  (entry b bucket (cutoffOf now AddDate days) days)) as F.
    rewrite W in F.
    destruct (scanContents DeleteObject bucket (cutoffOf now AddDate days)
                isDryRun isReport (seen pages)
                (entry b bucket (cutoffOf now AddDate days) days))
      as [[[] | []] s1]; simpl in F; try discriminate.
    rewrite E. split; reflexivity.
  - intros e. split; reflexivity.
  - intros e E W. rewrite scanCmd_loaded. cbv zeta.
    pose proof (scanContents_result bucket (cutoffOf now AddDate days)
                  isDryRun isReport (seen pages)
                  (entry b bucket (cutoffOf now AddDate days) days)) as F.
    rewrite W in F.
    destruct (scanContents DeleteObject bucket (cutoffOf now AddDate days)
                isDryRun isReport (seen pages)
                (entry b bucket (cutoffOf now AddDate days) days))
      as [[[] | []] s1]; simpl in F; try discriminate.
    rewrite E. split; [reflexivity |]. split; [| reflexivity].
    exists (out s1). reflexivity.
Qed.

(** *** Nil pointers *)

Lemma derefSafe_iff cutoff isReport obj :
  derefSafe cutoff isReport obj = true
  <-> LastModified obj <> None
      /\ (isReport = false -> isStale cutoff obj = true -> Key obj <> None).
Proof.
  unfold derefSafe, isStale.
  destruct (LastModified obj) as [t |].
  - destruct (t <? cutoff), isReport, (Key obj); simpl; split;
      try (intros H; split; [discriminate | intros H1 H2; congruence]);
      try (intros [_ H]; try reflexivity;
           exfalso; apply (H eq_refl eq_refl); reflexivity).
  - split; [discriminate | intros [H _]; elim H; reflexivity].
Qed.

Lemma seen_withoutSizes (pages : list PageResult) :
  seen (withoutSizes pages) = map withoutSize (seen pages)
  /\ firstError (withoutSizes pages) = firstError pages.
Proof.
  induction pages as [| [c | e] pages [IH1 IH2]]; simpl.
  - split; reflexivity.
  - fold (withoutSizes pages). rewrite IH1, IH2, map_app. split; reflexivity.
  - split; reflexivity.
Qed.

Lemma derefSafe_withoutSize cutoff isReport (objs : list Object) :
  forallb (derefSafe cutoff isReport) (map withoutSize objs)
  = forallb (derefSafe cutoff isReport) objs.
Proof.
  induction objs as [| obj objs IH]; simpl; [reflexivity |].
  rewrite IH. reflexivity.
Qed.

Lemma scanCmd_panics pages bucket days isDryRun isReport (b : S3) :
  fst (scanCmd DeleteObject now AddDate None pages bucket days isDryRun
               isReport b) <> Panicked
  <-> forallb (derefSafe (cutoffOf now AddDate days) isReport) (seen pages)
      = true.
Proof.
  rewrite scanCmd_loaded. cbv zeta.
  pose proof (scanContents_result bucket (cutoffOf now AddDate days)
                isDryRun isReport (seen pages)
                (entry b bucket (cutoffOf now AddDate days) days)) as F.
  destruct (scanContents DeleteObject bucket (cutoffOf now AddDate days)
              isDryRun isReport (seen pages)
              (entry b bucket (cutoffOf now AddDate days) days))
    as [[[] | []] s1]; simpl in F;
    destruct (forallb (derefSafe (cutoffOf now AddDate days) isReport)
                      (seen pages)); try discriminate; simpl.
  - destruct (firstError pages); simpl; split; auto; discriminate.
  - split; [intros H; elim H; reflexivity | discriminate].
Qed.

(** C10. The scan calls a method through every record's [LastModified]
    pointer and, for a stale record outside report-only mode, dereferences
    its [Key] pointer, with no nil check.  Once the configuration is
    loaded, a run is free of nil-pointer panics exactly when every record
    of the listed pages has a non-nil [LastModified] and, outside
    report-only mode, every stale one a non-nil [Key].  The [Size] pointer
    plays no part: the run on the listing with every [Size] made nil ends
    the same way. *)
Theorem C10_nil_pointer_precondition :
  forall pages bucket days isDryRun isReport (b : S3),
    (fst (scanCmd DeleteObject now AddDate None pages bucket days isDryRun
                  isReport b) <> Panicked
     <-> forall obj,
         In obj (seen pages) ->
         LastModified obj <> None
         /\ (isReport = false ->
             isStale (cutoffOf now AddDate days) obj = true ->
             Key obj <> None))
    /\ fst (scanCmd DeleteObject now AddDate None (withoutSizes pages)
                    bucket days isDryRun isReport b)
       = fst (scanCmd DeleteObject now AddDate None pages bucket days
                      isDryRun isReport b).
Proof.
  intros pages bucket days isDryRun isReport b. split.
  - rewrite scanCmd_panics, forallb_forall.
    split; intros H obj Hin; apply derefSafe_iff; apply H; exact Hin.
  - rewrite !scanCmd_loaded. cbv zeta.
    destruct (seen_withoutSizes pages) as [-> ->].
    set (cutoff := cutoffOf now AddDate days).
    pose proof (scanContents_result bucket cutoff isDryRun isReport
                  (seen pages) (entry b bucket cutoff days)) as F1.
    pose proof (scanContents_result bucket cutoff isDryRun isReport
                  (map withoutSize (seen pages)) (entry b bucket cutoff days))
      as F2.
    rewrite derefSafe_withoutSize in F2.
    destruct (scanContents DeleteObject bucket cutoff isDryRun isReport
                (seen pages) (entry b bucket cutoff days))
      as [[[] | []] s1];
      destruct (scanContents DeleteObject bucket cutoff isDryRun isReport
                  (map withoutSize (seen pages)) (entry b bucket cutoff days))
      as [[[] | []] s2]; simpl in F1, F2;
      destruct (forallb (derefSafe cutoff isReport) (seen pages));
      try discriminate; try reflexivity.
    destruct (firstError pages); reflexivity.
Qed.

(** *** Beyond the claims: the three modes *)

Lemma state_eta s :
  s = mkState (staleCount s) (totalSize s) (deletedCount s) (s3 s) (out s).
Proof. destruct s. reflexivity. Qed.

Lemma scanContents_report_flag bucket cutoff isDryRun isDryRun' objs :
  forall s,
    scanContents DeleteObject bucket cutoff isDryRun true objs s
    = scanContents DeleteObject bucket cutoff isDryRun' true objs s.
Proof.
  induction objs as [| obj objs IH]; intros s; simpl; [reflexivity |].
  unfold bind.
  assert (E : scanObject DeleteObject bucket cutoff isDryRun true obj s
              = scanObject DeleteObject bucket cutoff isDryRun' true obj s).
  { destruct (LastModified obj) as [t |] eqn:Ht.
    - destruct (Z.ltb_spec t cutoff) as [Hlt | Hge].
      + rewrite !(scanObject_stale _ _ _ _ _ _ _ Ht Hlt), !staleObject_report.
        reflexivity.
      + rewrite !(scanObject_fresh _ _ _ _ _ _ _ Ht Hge). reflexivity.
    - rewrite !scanObject_nil_time by exact Ht. reflexivity. }
  rewrite E.
  destruct (scanObject DeleteObject bucket cutoff isDryRun' true obj s)
    as [[[] | w] s1]; [apply IH | reflexivity].
Qed.

(** X1. The report flag takes precedence over the dry-run flag: with
    [--report] the whole run (how it ends, accumulators, backend, output) is
    the same whatever [--dry-run] is. *)
Theorem report_flag_overrides_dry_run :
  forall loadErr pages bucket days isDryRun isDryRun' (b : S3),
    scanCmd DeleteObject now AddDate loadErr pages bucket days isDryRun true b
    = scanCmd DeleteObject now AddDate loadErr pages bucket days isDryRun'
              true b.
Proof.
  intros loadErr pages bucket days isDryRun isDryRun' b.
  destruct loadErr as [e |]; [reflexivity |].
  rewrite !scanCmd_loaded. cbv zeta.
  rewrite (scanContents_report_flag bucket (cutoffOf now AddDate days)
             isDryRun isDryRun').
  reflexivity.
Qed.

Lemma derefSafe_report cutoff obj :
  derefSafe cutoff true obj
  = match LastModified obj with Some _ => true | None => false end.
Proof.
  unfold derefSafe. destruct (LastModified obj) as [t |]; [| reflexivity].
  destruct (t <? cutoff); reflexivity.
Qed.

(** X2. A report-only run over a listing that was retrieved in full and
    whose records all have a timestamp prints nothing per record: the output
    is the banner and the five lines of the report, with the number of stale
    records and their bytes (in machine arithmetic); nothing is deleted. *)
Theorem report_only_run_in_full :
  forall pages bucket days isDryRun (b : S3),
    firstError pages = None ->
    forallb (derefSafe (cutoffOf now AddDate days) true) (seen pages) = true ->
    scanCmd DeleteObject now AddDate None pages bucket days isDryRun true b
    = (Returned,
       mkState (wrap64 (countStale (cutoffOf now AddDate days) (seen pages)))
               (wrap64 (staleBytes (cutoffOf now AddDate days) (seen pages)))
               0 b
               [ScanBanner bucket (cutoffOf now AddDate days) days;
                Separator; ReportHeader;
                ReportStale
                  (wrap64 (countStale (cutoffOf now AddDate days)
                                      (seen pages)));
                ReportGB
                  (wrap64 (staleBytes (cutoffOf now AddDate days)
                                      (seen pages)));
                ReportSavings
                  (wrap64 (staleBytes (cutoffOf now AddDate days)
                                      (seen pages)));
                ReportFootnote]).
Proof.
  intros pages bucket days isDryRun b E W.
  rewrite scanCmd_loaded. cbv zeta.
  set (cutoff := cutoffOf now AddDate days) in *.
  pose proof (scanContents_result bucket cutoff isDryRun true (seen pages)
                (entry b bucket cutoff days)) as F.
  pose proof (scanContents_report bucket cutoff isDryRun (seen pages)
                (entry b bucket cutoff days)) as R.
  pose proof (scanContents_acc bucket cutoff isDryRun true (seen pages)
                (entry b bucket cutoff days)) as A.
  rewrite W in F. cbv zeta in R.
  destruct (scanContents DeleteObject bucket cutoff isDryRun true (seen pages)
              (entry b bucket cutoff days)) as [[[] | w] s1];
    simpl in F; [| discriminate].
  simpl in R. destruct R as (R1 & R2 & R3).
  destruct (A s1 eq_refl in_int64_0 in_int64_0) as [A1 A2].
  simpl in A1, A2. rewrite E. unfold addOut, summaryLines.
  rewrite R1, R2, R3, A1, A2. reflexivity.
Qed.

(** *** Dry run in full *)

Lemma scanContents_dry_lines bucket cutoff objs :
  forall s s',
    scanContents DeleteObject bucket cutoff true false objs s = (Val tt, s') ->
    out s' = out s ++ flat_map dryRunLineOf (staleOnes cutoff objs).
Proof.
  induction objs as [| obj objs IH]; intros s s' H; simpl in H.
  - injection H as <-. simpl. rewrite app_nil_r. reflexivity.
  - unfold bind in H.
    destruct (scanObject DeleteObject bucket cutoff true false obj s)
      as [[[] | w] s1] eqn:E; [| discriminate].
    rewrite (IH _ _ H).
    change (staleOnes cutoff (obj :: objs))
      with (if isStale cutoff obj then obj :: staleOnes cutoff objs
            else staleOnes cutoff objs).
    unfold isStale.
    destruct (LastModified obj) as [t |] eqn:Ht.
    + destruct (Z.ltb_spec t cutoff) as [Hlt | Hge].
      * rewrite (scanObject_stale _ _ _ _ _ _ _ Ht Hlt), staleObject_dry in E.
        destruct (Key obj) as [k |] eqn:Hk; [| discriminate].
        injection E as <-.
        assert (D : dryRunLineOf obj = [DryRunLine k t (Size obj)])
          by (unfold dryRunLineOf; rewrite Hk, Ht; reflexivity).
        cbn [out flat_map]. rewrite D, <- app_assoc. reflexivity.
      * rewrite (scanObject_fresh _ _ _ _ _ _ _ Ht Hge) in E.
        injection E as <-. reflexivity.
    + rewrite scanObject_nil_time in E by exact Ht. discriminate.
Qed.

(** X3. A dry run over a listing that was retrieved in full and has no nil
    pointer prints, between the banner and the summary, one [DRY RUN] line
    for each stale record and none for any other, in the order of the
    listing; the summary carries the number of stale records and their
    bytes; the deleted count stays 0 and the backend is not touched. *)
Theorem dry_run_in_full :
  forall pages bucket days (b : S3),
    firstError pages = None ->
    forallb (derefSafe (cutoffOf now AddDate days) false) (seen pages) = true ->
    scanCmd DeleteObject now AddDate None pages bucket days true false b
    = (Returned,
       mkState (wrap64 (countStale (cutoffOf now AddDate days) (seen pages)))
               (wrap64 (staleBytes (cutoffOf now AddDate days) (seen pages)))
               0 b
               (ScanBanner bucket (cutoffOf now AddDate days) days
                :: flat_map dryRunLineOf
                            (staleOnes (cutoffOf now AddDate days) (seen pages))
                ++ [Separator;
                    DrySummary
                      (wrap64 (countStale (cutoffOf now AddDate days)
                                          (seen pages)))
                      (wrap64 (staleBytes (cutoffOf now AddDate days)
                                          (seen pages)));
                    DryHint])).
Proof.
  intros pages bucket days b E W.
  rewrite scanCmd_loaded. cbv zeta.
  set (cutoff := cutoffOf now AddDate days) in *.
  pose proof (scanContents_result bucket cutoff true false (seen pages)
                (entry b bucket cutoff days)) as F.
  pose proof (scanContents_dry bucket cutoff (seen pages)
                (entry b bucket cutoff days)) as R.
  pose proof (scanContents_acc bucket cutoff true false (seen pages)
                (entry b bucket cutoff days)) as A.
  pose proof (scanContents_dry_lines bucket cutoff (seen pages)
                (entry b bucket cutoff days)) as L.
  rewrite W in F. cbv zeta in R.
  destruct (scanContents DeleteObject bucket cutoff true false (seen pages)
              (entry b bucket cutoff days)) as [[[] | w] s1];
    simpl in F; [| discriminate].
  simpl in R. destruct R as (_ & R2 & R3 & _).
  destruct (A s1 eq_refl in_int64_0 in_int64_0) as [A1 A2].
  simpl in A1, A2. specialize (L s1 eq_refl). simpl in L.
  rewrite E. unfold addOut, summaryLines.
  rewrite R2, R3, A1, A2, L. reflexivity.
Qed.

(** *** A dry run shows what a live run would delete *)

Lemma dryRunKeys_app (a b : list Event) :
  dryRunKeys (a ++ b) = dryRunKeys a ++ dryRunKeys b.
Proof.
  induction a as [| e a IH]; simpl; [reflexivity |].
  destruct e; simpl; rewrite ?IH; reflexivity.
Qed.

Lemma dryRunKeys_lines cutoff (objs : list Object) :
  forallb (derefSafe cutoff false) objs = true ->
  map Some (dryRunKeys (flat_map dryRunLineOf (staleOnes cutoff objs)))
  = map Key (staleOnes cutoff objs).
Proof.
  induction objs as [| obj objs IH]; simpl; [reflexivity |].
  intros H. apply andb_prop in H. destruct H as [Ho Hr].
  change (staleOnes cutoff (obj :: objs))
    with (if isStale cutoff obj then obj :: staleOnes cutoff objs
          else staleOnes cutoff objs).
  unfold derefSafe in Ho. unfold isStale.
  destruct (LastModified obj) as [t |] eqn:Ht; [| discriminate].
  destruct (t <? cutoff); [| apply IH; exact Hr].
  destruct (Key obj) as [k |] eqn:Hk; [| discriminate].
  cbn [flat_map map]. unfold dryRunLineOf at 1. rewrite Hk, Ht.
  cbn [app dryRunKeys map]. rewrite (IH Hr). reflexivity.
Qed.

(** X4. On a listing without nil pointers, the keys named by the [DRY RUN]
    lines of a dry run are, in the same order, the keys a live run calls
    [DeleteObject] with, whatever the backend answers; this holds also when
    the listing breaks off with an error. *)
Theorem dry_run_previews_live_deletes :
  forall pages bucket days (b b' : S3),
    forallb (derefSafe (cutoffOf now AddDate days) false) (seen pages) = true ->
    map Some
        (dryRunKeys (out (snd (scanCmd DeleteObject now AddDate None pages
                                       bucket days true false b))))
    = deletedKeys (out (snd (scanCmd DeleteObject now AddDate None pages
                                     bucket days false false b'))).
Proof.
  intros pages bucket days b b' W.
  rewrite !scanCmd_loaded. cbv zeta.
  set (cutoff := cutoffOf now AddDate days) in *.
  pose proof (scanContents_result bucket cutoff true false (seen pages)
                (entry b bucket cutoff days)) as F1.
  pose proof (scanContents_result bucket cutoff false false (seen pages)
                (entry b' bucket cutoff days)) as F2.
  pose proof (scanContents_dry_lines bucket cutoff (seen pages)
                (entry b bucket cutoff days)) as L1.
  pose proof (scanContents_live bucket cutoff (seen pages)
                (entry b' bucket cutoff days)) as L2.
  rewrite W in F1, F2.
  destruct (scanContents DeleteObject bucket cutoff true false (seen pages)
              (entry b bucket cutoff days)) as [[[] | w1] s1];
    simpl in F1; [| discriminate].
  destruct (scanContents DeleteObject bucket cutoff false false (seen pages)
              (entry b' bucket cutoff days)) as [[[] | w2] s2];
    simpl in F2; [| discriminate].
  specialize (L1 s1 eq_refl). destruct (L2 s2 eq_refl in_int64_0) as [K _].
  simpl in L1, K.
  destruct (firstError pages) as [e |]; simpl;
    rewrite dryRunKeys_app, deletedKeys_app, L1, K; simpl;
    rewrite !app_nil_r; apply dryRunKeys_lines; exact W.
Qed.

Lemma scanCmd_figures :
  forall pages bucket days isDryRun isReport (b : S3),
    fst (scanCmd DeleteObject now AddDate None pages bucket days isDryRun
                 isReport b) <> Panicked ->
    Z.of_nat (length (seen pages)) <= int64_max ->
    staleCount (snd (scanCmd DeleteObject now AddDate None pages bucket days
                             isDryRun isReport b))
    = countStale (cutoffOf now AddDate days) (seen pages)
    /\ totalSize (snd (scanCmd DeleteObject now AddDate None pages bucket days
                               isDryRun isReport b))
       = wrap64 (staleBytes (cutoffOf now AddDate days) (seen pages)).
Proof.
  intros pages bucket days isDryRun isReport b.
  rewrite scanCmd_loaded. cbv zeta.
  set (cutoff := cutoffOf now AddDate days).
  pose proof (scanContents_result bucket cutoff isDryRun isReport (seen pages)
                (entry b bucket cutoff days)) as F.
  pose proof (scanContents_acc bucket cutoff isDryRun isReport (seen pages)
                (entry b bucket cutoff days)) as A.
  destruct (scanContents DeleteObject bucket cutoff isDryRun isReport
              (seen pages) (entry b bucket cutoff days)) as [[[] | []] s1];
    simpl in F.
  - intros _ Hlen.
    destruct (A s1 eq_refl in_int64_0 in_int64_0) as [A1 A2].
    simpl in A1, A2. rewrite wrap64_count in A1 by exact Hlen.
    destruct (firstError pages); simpl; split; assumption.
  - destruct (forallb (derefSafe cutoff isReport) (seen pages)); discriminate.
  - simpl. intros H. contradiction.
Qed.

(** X5. In every mode and whatever the backend answers, a run that does
    not end in a panic leaves as stale count the number of stale records of
    the listed pages (for listings an [int] can count) and as byte total the
    [int64] sum of their sizes: the two figures depend on the listing and the
    cutoff only. *)
Theorem final_figures_depend_on_listing_only :
  forall pages bucket days isDryRun isReport (b : S3),
    fst (scanCmd DeleteObject now AddDate None pages bucket days isDryRun
                 isReport b) <> Panicked ->
    Z.of_nat (length (seen pages)) <= int64_max ->
    staleCount (snd (scanCmd DeleteObject now AddDate None pages bucket days
                             isDryRun isReport b))
    = countStale (cutoffOf now AddDate days) (seen pages)
    /\ totalSize (snd (scanCmd DeleteObject now AddDate None pages bucket days
                               isDryRun isReport b))
       = wrap64 (staleBytes (cutoffOf now AddDate days) (seen pages)).
Proof. exact scanCmd_figures. Qed.

(** X6. Where the page boundaries fall does not matter: two sequences of
    paginator answers with the same records in the same order, and the same
    first error if any, give the same run. *)
Theorem page_boundaries_do_not_matter :
  forall loadErr pages pages' bucket days isDryRun isReport (b : S3),
    seen pages = seen pages' ->
    firstError pages = firstError pages' ->
    scanCmd DeleteObject now AddDate loadErr pages bucket days isDryRun
            isReport b
    = scanCmd DeleteObject now AddDate loadErr pages' bucket days isDryRun
              isReport b.
Proof.
  intros loadErr pages pages' bucket days isDryRun isReport b Hs He.
  destruct loadErr as [e |]; [reflexivity |].
  rewrite !scanCmd_loaded. cbv zeta. rewrite Hs, He. reflexivity.
Qed.

(** X7. A bucket with nothing in it, however many empty pages the listing
    has: the run returns with all three accumulators at 0, the backend as it
    was, and only the banner and the summary of the mode as output. *)
Theorem empty_listing :
  forall pages bucket days isDryRun isReport (b : S3),
    seen pages = [] ->
    firstError pages = None ->
    scanCmd DeleteObject now AddDate None pages bucket days isDryRun isReport b
    = (Returned,
       mkState 0 0 0 b
               (ScanBanner bucket (cutoffOf now AddDate days) days
                :: summaryLines isDryRun isReport 0 0 0)).
Proof.
  intros pages bucket days isDryRun isReport b Hs He.
  rewrite scanCmd_loaded. cbv zeta. rewrite Hs, He. reflexivity.
Qed.

(** *** The lines of a live run *)

Lemma scanObject_live_lines bucket cutoff obj s :
  let r := scanObject DeleteObject bucket cutoff false false obj s in
  fst r = Val tt ->
  count isDeletedLine (out (snd r)) - count isDeletedLine (out s)
  = count isOkDelete (out (snd r)) - count isOkDelete (out s)
  /\ count isDeleteWarn (out (snd r)) - count isDeleteWarn (out s)
     = count isFailedDelete (out (snd r)) - count isFailedDelete (out s).
Proof.
  destruct (LastModified obj) as [t |] eqn:Ht.
  - destruct (Z.ltb_spec t cutoff) as [Hlt | Hge].
    + rewrite (scanObject_stale _ _ _ _ _ _ _ Ht Hlt), staleObject_delete.
      destruct (DeleteObject (s3 s) bucket (Key obj)) as [b [e |]];
        destruct (Key obj) as [k |]; simpl; try discriminate; intros _;
        rewrite !count_app, !count_cons;
        cbn [isDeletedLine isDeleteWarn isOkDelete isFailedDelete count filter
             length Z.of_nat]; lia.
    + rewrite (scanObject_fresh _ _ _ _ _ _ _ Ht Hge). simpl. lia.
  - rewrite scanObject_nil_time by exact Ht. simpl. discriminate.
Qed.

Lemma scanContents_live_lines bucket cutoff objs :
  forall s s',
    scanContents DeleteObject bucket cutoff false false objs s = (Val tt, s') ->
    count isDeletedLine (out s') - count isDeletedLine (out s)
    = count isOkDelete (out s') - count isOkDelete (out s)
    /\ count isDeleteWarn (out s') - count isDeleteWarn (out s)
       = count isFailedDelete (out s') - count isFailedDelete (out s).
Proof.
  induction objs as [| obj objs IH]; intros s s' H; simpl in H.
  - injection H as <-. lia.
  - unfold bind in H.
    pose proof (scanObject_live_lines bucket cutoff obj s) as R.
    destruct (scanObject DeleteObject bucket cutoff false false obj s)
      as [[[] | w] s1]; [| discriminate].
    simpl in R. specialize (R eq_refl). specialize (IH _ _ H). lia.
Qed.

(** X8. In a live run that does not end in a panic (listings an [int] can
    count), the deleted count is the number of [DELETED] lines printed, the
    number of warnings is the number of [DeleteObject] calls that failed, and
    the count in the closing line of a completed run is the number of
    [DELETED] lines. *)
Theorem live_summary_counts_the_deleted_lines :
  forall pages bucket days (b : S3),
    fst (scanCmd DeleteObject now AddDate None pages bucket days
                 false false b) <> Panicked ->
    Z.of_nat (length (seen pages)) <= int64_max ->
    deletedCount (snd (scanCmd DeleteObject now AddDate None pages bucket days
                               false false b))
    = count isDeletedLine
            (out (snd (scanCmd DeleteObject now AddDate None pages bucket
                               days false false b)))
    /\ count isDeleteWarn
             (out (snd (scanCmd DeleteObject now AddDate None pages bucket
                                days false false b)))
       = count isFailedDelete
               (out (snd (scanCmd DeleteObject now AddDate None pages bucket
                                  days false false b)))
    /\ (fst (scanCmd DeleteObject now AddDate None pages bucket days
                     false false b) = Returned ->
        In (CleanupSummary
              (count isDeletedLine
                     (out (snd (scanCmd DeleteObject now AddDate None pages
                                        bucket days false false b)))))
           (out (snd (scanCmd DeleteObject now AddDate None pages bucket days
                              false false b)))).
Proof.
  intros pages bucket days b.
  rewrite scanCmd_loaded. cbv zeta.
  set (cutoff := cutoffOf now AddDate days).
  pose proof (scanContents_live bucket cutoff (seen pages)
                (entry b bucket cutoff days)) as L.
  pose proof (scanContents_live_lines bucket cutoff (seen pages)
                (entry b bucket cutoff days)) as N.
  pose proof (scanContents_result bucket cutoff false false (seen pages)
                (entry b bucket cutoff days)) as F.
  destruct (scanContents DeleteObject bucket cutoff false false (seen pages)
              (entry b bucket cutoff days)) as [[[] | []] s1]; simpl in F.
  - intros _ Hlen.
    destruct (L s1 eq_refl in_int64_0) as (L1 & L2 & L3).
    destruct (N s1 eq_refl) as [N1 N2].
    simpl in L1, L3, N1, N2.
    assert (C : count isDeleteCall (out s1) = countStale cutoff (seen pages)).
    { rewrite count_deletedKeys, L1, length_map. reflexivity. }
    pose proof (count_delete_split (out s1)) as Sp.
    pose proof (count_nonneg isOkDelete (out s1)) as P1.
    pose proof (count_nonneg isFailedDelete (out s1)) as P2.
    pose proof (countStale_bounds cutoff (seen pages)) as Bd.
    change (count isDeletedLine [ScanBanner bucket cutoff days]) with 0 in N1.
    change (count isDeleteWarn [ScanBanner bucket cutoff days]) with 0 in N2.
    change (count isFailedDelete [ScanBanner bucket cutoff days]) with 0 in N2.
    change (count isOkDelete [ScanBanner bucket cutoff days]) with 0 in N1, L3.
    rewrite wrap64_id in L3
      by (unfold in_int64, int64_min, int64_max in *; lia).
    assert (D : deletedCount s1 = count isDeletedLine (out s1)) by lia.
    destruct (firstError pages) as [e |]; simpl; unfold summaryLines;
      rewrite !count_app, !count_cons;
      cbn [isDeletedLine isDeleteWarn isFailedDelete count filter length
           Z.of_nat].
    + split; [lia |]. split; [lia | discriminate].
    + split; [lia |]. split; [lia |]. intros _.
      apply in_or_app. right. right. left. f_equal. lia.
  - destruct (forallb (derefSafe cutoff false) (seen pages)); discriminate.
  - simpl. intros H. contradiction.
Qed.

(** *** The backend *)

Lemma afterDeletes_app bucket (k1 k2 : list (option string)) (b : S3) :
  afterDeletes DeleteObject bucket (k1 ++ k2) b
  = afterDeletes DeleteObject bucket k2 (afterDeletes DeleteObject bucket k1 b).
Proof. unfold afterDeletes. apply fold_left_app. Qed.

Lemma scanObject_backend bucket cutoff isDryRun isReport obj s (b : S3) :
  s3 s = afterDeletes DeleteObject bucket (deletedKeys (out s)) b ->
  s3 (snd (scanObject DeleteObject bucket cutoff isDryRun isReport obj s))
  = afterDeletes DeleteObject bucket
      (deletedKeys
         (out (snd (scanObject DeleteObject bucket cutoff isDryRun isReport
                               obj s)))) b.
Proof.
  intros I. destruct (LastModified obj) as [t |] eqn:Ht.
  - destruct (Z.ltb_spec t cutoff) as [Hlt | Hge].
    + rewrite (scanObject_stale _ _ _ _ _ _ _ Ht Hlt).
      destruct isReport; [rewrite staleObject_report; exact I |].
      destruct isDryRun.
      * rewrite staleObject_dry. destruct (Key obj); simpl; [| exact I].
        rewrite deletedKeys_app. simpl. rewrite app_nil_r. exact I.
      * rewrite staleObject_delete.
        destruct (DeleteObject (s3 s) bucket (Key obj)) as [b1 [e |]] eqn:D;
          destruct (Key obj) as [k |]; simpl;
          rewrite !deletedKeys_app; simpl; rewrite ?app_nil_r;
          rewrite afterDeletes_app, <- I; simpl; rewrite D; reflexivity.
    + rewrite (scanObject_fresh _ _ _ _ _ _ _ Ht Hge). exact I.
  - rewrite scanObject_nil_time by exact Ht. exact I.
Qed.

Lemma scanContents_backend bucket cutoff isDryRun isReport objs (b : S3) :
  forall s,
    s3 s = afterDeletes DeleteObject bucket (deletedKeys (out s)) b ->
    s3 (snd (scanContents DeleteObject bucket cutoff isDryRun isReport objs s))
    = afterDeletes DeleteObject bucket
        (deletedKeys
           (out (snd (scanContents DeleteObject bucket cutoff isDryRun
                                   isReport objs s)))) b.
Proof.
  induction objs as [| obj objs IH]; intros s I; simpl; [exact I |].
  unfold bind.
  pose proof (scanObject_backend bucket cutoff isDryRun isReport obj s b I)
    as R.
  destruct (scanObject DeleteObject bucket cutoff isDryRun isReport obj s)
    as [[[] | w] s1]; simpl in R; [apply IH |]; exact R.
Qed.

Lemma summaryLines_keys isDryRun isReport n sz d :
  deletedKeys (summaryLines isDryRun isReport n sz d) = [].
Proof. destruct isReport, isDryRun; reflexivity. Qed.

(** X9. However a run ends, in any mode, the backend is what the
    [DeleteObject] calls of the trace, made in that order on the backend the
    run started with, left of it: the run does nothing else to the
    backend. *)
Theorem backend_is_changed_by_the_delete_calls_only :
  forall loadErr pages bucket days isDryRun isReport (b : S3),
    s3 (snd (scanCmd DeleteObject now AddDate loadErr pages bucket days
                     isDryRun isReport b))
    = afterDeletes DeleteObject bucket
        (deletedKeys
           (out (snd (scanCmd DeleteObject now AddDate loadErr pages bucket
                              days isDryRun isReport b)))) b.
Proof.
  intros loadErr pages bucket days isDryRun isReport b.
  destruct loadErr as [e |]; [reflexivity |].
  rewrite scanCmd_loaded. cbv zeta.
  set (cutoff := cutoffOf now AddDate days).
  pose proof (scanContents_backend bucket cutoff isDryRun isReport (seen pages)
                b (entry b bucket cutoff days) eq_refl) as R.
  destruct (scanContents DeleteObject bucket cutoff isDryRun isReport
              (seen pages) (entry b bucket cutoff days)) as [[[] | []] s1];
    simpl in R; try exact R.
  destruct (firstError pages) as [e |]; simpl;
    rewrite deletedKeys_app; [simpl | rewrite summaryLines_keys];
    rewrite app_nil_r; exact R.
Qed.

(** *** The cutoff *)

Lemma countStale_mono c1 c2 (objs : list Object) :
  c1 <= c2 -> countStale c1 objs <= countStale c2 objs.
Proof.
  intros H. induction objs as [| obj objs IH].
  - unfold countStale. simpl. lia.
  - rewrite !countStale_cons. unfold isStale.
    destruct (LastModified obj) as [t |]; [| lia].
    destruct (Z.ltb_spec t c1), (Z.ltb_spec t c2); lia.
Qed.

(** X10. An earlier cutoff never finds more: of two runs over the same
    listing that do not end in a panic, in whatever modes, the one with the
    earlier cutoff ends with a stale count that is not larger (listings an
    [int] can count). *)
Theorem earlier_cutoff_finds_no_more :
  forall pages bucket d1 d2 isDryRun isReport isDryRun' isReport' (b b' : S3),
    cutoffOf now AddDate d1 <= cutoffOf now AddDate d2 ->
    fst (scanCmd DeleteObject now AddDate None pages bucket d1 isDryRun
                 isReport b) <> Panicked ->
    fst (scanCmd DeleteObject now AddDate None pages bucket d2 isDryRun'
                 isReport' b') <> Panicked ->
    Z.of_nat (length (seen pages)) <= int64_max ->
    staleCount (snd (scanCmd DeleteObject now AddDate None pages bucket d1
                             isDryRun isReport b))
    <= staleCount (snd (scanCmd DeleteObject now AddDate None pages bucket d2
                                isDryRun' isReport' b')).
Proof.
  intros pages bucket d1 d2 isDryRun isReport isDryRun' isReport' b b'
         Hc H1 H2 Hlen.
  destruct (scanCmd_figures pages bucket d1 isDryRun isReport b H1 Hlen)
    as [-> _].
  destruct (scanCmd_figures pages bucket d2 isDryRun' isReport' b' H2 Hlen)
    as [-> _].
  apply countStale_mono. exact Hc.
Qed.

(** *** The summary *)

Lemma count_below_summary (p : Event -> bool) (tr : list Event) :
  (forall e, p e = true -> isSummary e = true) ->
  count isSummary tr = 0 -> count p tr = 0.
Proof.
  intros Hp H0. pose proof (count_nonneg p tr) as N.
  destruct (Z.eq_dec (count p tr) 0) as [E | E]; [exact E |].
  assert (P : 0 < count p tr) by lia.
  apply count_pos_iff in P. destruct P as (e & Hin & He).
  pose proof (count_zero_none isSummary tr H0 e Hin) as C.
  rewrite (Hp e He) in C. discriminate.
Qed.

(** X11. The three summaries exclude one another.  A run that returns
    prints the separator once and exactly one of the report, the dry-run
    summary and the cleanup summary, once: the report with [--report], else
    the dry-run summary with [--dry-run], else the cleanup summary.  A run
    that ends otherwise prints none of them. *)
Theorem exactly_one_summary :
  forall loadErr pages bucket days isDryRun isReport (b : S3),
    let r := scanCmd DeleteObject now AddDate loadErr pages bucket days
                     isDryRun isReport b in
    count isSeparator (out (snd r))
    = (match fst r with Returned => 1 | _ => 0 end)
    /\ count isReportHeader (out (snd r))
       = (match fst r with
          | Returned => if isReport then 1 else 0
          | _ => 0
          end)
    /\ count isDrySummary (out (snd r))
       = (match fst r with
          | Returned => if isReport then 0 else if isDryRun then 1 else 0
          | _ => 0
          end)
    /\ count isCleanupSummary (out (snd r))
       = (match fst r with
          | Returned => if isReport then 0 else if isDryRun then 0 else 1
          | _ => 0
          end).
Proof.
  intros loadErr pages bucket days isDryRun isReport b. cbv zeta.
  destruct loadErr as [e |]; [repeat split |].
  rewrite scanCmd_loaded. cbv zeta.
  set (cutoff := cutoffOf now AddDate days).
  pose proof (scanContents_no_summary bucket cutoff isDryRun isReport
                (seen pages) (entry b bucket cutoff days)) as N.
  destruct (scanContents DeleteObject bucket cutoff isDryRun isReport
              (seen pages) (entry b bucket cutoff days)) as [[[] | w] s1];
    simpl in N.
  - assert (Z1 : count isSeparator (out s1) = 0)
      by (apply count_below_summary; [intros []; auto; discriminate | exact N]).
    assert (Z2 : count isReportHeader (out s1) = 0)
      by (apply count_below_summary; [intros []; auto; discriminate | exact N]).
    assert (Z3 : count isDrySummary (out s1) = 0)
      by (apply count_below_summary; [intros []; auto; discriminate | exact N]).
    assert (Z4 : count isCleanupSummary (out s1) = 0)
      by (apply count_below_summary; [intros []; auto; discriminate | exact N]).
    destruct (firstError pages) as [e |]; simpl;
      rewrite !count_app, Z1, Z2, Z3, Z4.
    + repeat split.
    + destruct isReport, isDryRun; repeat split.
  - assert (Z1 : count isSeparator (out s1) = 0)
      by (apply count_below_summary; [intros []; auto; discriminate | exact N]).
    assert (Z2 : count isReportHeader (out s1) = 0)
      by (apply count_below_summary; [intros []; auto; discriminate | exact N]).
    assert (Z3 : count isDrySummary (out s1) = 0)
      by (apply count_below_summary; [intros []; auto; discriminate | exact N]).
    assert (Z4 : count isCleanupSummary (out s1) = 0)
      by (apply count_below_summary; [intros []; auto; discriminate | exact N]).
    destruct w; simpl; rewrite Z1, Z2, Z3, Z4; repeat split.
Qed.

(** *** Where a nil pointer stops the run *)

Lemma scanContents_safe bucket cutoff isDryRun isReport objs s :
  forallb (derefSafe cutoff isReport) objs = true ->
  exists s1,
    scanContents DeleteObject bucket cutoff isDryRun isReport objs s
    = (Val tt, s1).
Proof.
  intros W.
  pose proof (scanContents_result bucket cutoff isDryRun isReport objs s) as F.
  rewrite W in F.
  destruct (scanContents DeleteObject bucket cutoff isDryRun isReport objs s)
    as [[[] | w] s1]; simpl in F; [| discriminate].
  exists s1. reflexivity.
Qed.

(** X12. A record without a timestamp ends the run in a panic at that
    record, in every mode: the process stops in the state the records before
    it left (what was deleted stays deleted, what was printed stays
    printed), no later record is looked at and no summary is printed. *)
Theorem nil_timestamp_stops_the_run :
  forall pages done bad rest bucket days isDryRun isReport (b : S3),
    seen pages = done ++ bad :: rest ->
    forallb (derefSafe (cutoffOf now AddDate days) isReport) done = true ->
    LastModified bad = None ->
    exists s1,
      scanContents DeleteObject bucket (cutoffOf now AddDate days) isDryRun
                   isReport done
                   (entry b bucket (cutoffOf now AddDate days) days)
      = (Val tt, s1)
      /\ scanCmd DeleteObject now AddDate None pages bucket days isDryRun
                 isReport b
         = (Panicked, s1).
Proof.
  intros pages done bad rest bucket days isDryRun isReport b Hs W Hn.
  destruct (scanContents_safe bucket (cutoffOf now AddDate days) isDryRun
              isReport done
              (entry b bucket (cutoffOf now AddDate days) days) W)
    as [s1 E].
  exists s1. split; [exact E |].
  rewrite scanCmd_loaded. cbv zeta.
  rewrite Hs, scanContents_app. unfold bind. rewrite E. simpl.
  unfold bind. rewrite scanObject_nil_time by exact Hn. reflexivity.
Qed.

(** X13. A stale record without a key ends the run in a panic outside
    report-only mode, after it was counted.  In a live run [DeleteObject]
    has by then been called with the nil key, and its answer is the last
    event; in a dry run nothing is printed for the record. *)
Theorem nil_key_stops_the_run_after_the_delete_call :
  forall pages done bad t rest bucket days (b : S3),
    seen pages = done ++ bad :: rest ->
    forallb (derefSafe (cutoffOf now AddDate days) false) done = true ->
    LastModified bad = Some t -> t < cutoffOf now AddDate days ->
    Key bad = None ->
    (exists s1,
        scanContents DeleteObject bucket (cutoffOf now AddDate days) false
                     false done
                     (entry b bucket (cutoffOf now AddDate days) days)
        = (Val tt, s1)
        /\ scanCmd DeleteObject now AddDate None pages bucket days false false
                   b
           = (Panicked,
              mkState (staleCount (counted bad s1)) (totalSize (counted bad s1))
                      (deletedCount s1)
                      (fst (DeleteObject (s3 s1) bucket None))
                      (out s1
                       ++ [DeleteCall bucket None
                             (snd (DeleteObject (s3 s1) bucket None))])))
    /\ (exists s1,
           scanContents DeleteObject bucket (cutoffOf now AddDate days) true
                        false done
                        (entry b bucket (cutoffOf now AddDate days) days)
           = (Val tt, s1)
           /\ scanCmd DeleteObject now AddDate None pages bucket days true
                      false b
              = (Panicked, counted bad s1)).
Proof.
  intros pages done bad t rest bucket days b Hs W Ht Hlt Hk. split.
  - destruct (scanContents_safe bucket (cutoffOf now AddDate days) false
                false done
                (entry b bucket (cutoffOf now AddDate days) days) W)
      as [s1 E].
    exists s1. split; [exact E |].
    rewrite scanCmd_loaded. cbv zeta.
    rewrite Hs, scanContents_app. unfold bind. rewrite E. simpl.
    unfold bind.
    rewrite (scanObject_stale _ _ _ _ _ _ _ Ht Hlt), staleObject_delete, Hk.
    destruct (DeleteObject (s3 s1) bucket None) as [b1 err]. reflexivity.
  - destruct (scanContents_safe bucket (cutoffOf now AddDate days) true
                false done
                (entry b bucket (cutoffOf now AddDate days) days) W)
      as [s1 E].
    exists s1. split; [exact E |].
    rewrite scanCmd_loaded. cbv zeta.
    rewrite Hs, scanContents_app. unfold bind. rewrite E. simpl.
    unfold bind.
    rewrite (scanObject_stale _ _ _ _ _ _ _ Ht Hlt), staleObject_dry, Hk.
    reflexivity.
Qed.

(** *** The command line *)

Lemma main_scan g loadErr pages (b : S3) :
  Cli.main DeleteObject now AddDate (Cli.RunScan g) loadErr pages b
  = Cli.mkEnded
      (exitCode (fst (scanCmd DeleteObject now AddDate loadErr pages
                              (Cli.bucketName (Cli.parsed g))
                              (Cli.days (Cli.parsed g))
                              (Cli.dryRun (Cli.parsed g))
                              (Cli.reportOnly (Cli.parsed g)) b)))
      (s3 (snd (scanCmd DeleteObject now AddDate loadErr pages
                        (Cli.bucketName (Cli.parsed g))
                        (Cli.days (Cli.parsed g))
                        (Cli.dryRun (Cli.parsed g))
                        (Cli.reportOnly (Cli.parsed g)) b)))
      (map Cli.ScanEvent
           (out (snd (scanCmd DeleteObject now AddDate loadErr pages
                              (Cli.bucketName (Cli.parsed g))
                              (Cli.days (Cli.parsed g))
                              (Cli.dryRun (Cli.parsed g))
                              (Cli.reportOnly (Cli.parsed g)) b)))).
Proof.
  unfold Cli.main.
  destruct (scanCmd DeleteObject now AddDate loadErr pages
              (Cli.bucketName (Cli.parsed g)) (Cli.days (Cli.parsed g))
              (Cli.dryRun (Cli.parsed g)) (Cli.reportOnly (Cli.parsed g)) b).
  reflexivity.
Qed.

Lemma scanCmd_quiet loadErr pages bucket days isDryRun isReport (b : S3) :
  isReport = true \/ isDryRun = true ->
  deletedKeys (out (snd (scanCmd DeleteObject now AddDate loadErr pages bucket
                                 days isDryRun isReport b))) = []
  /\ s3 (snd (scanCmd DeleteObject now AddDate loadErr pages bucket days
                      isDryRun isReport b)) = b.
Proof.
  intros H. destruct loadErr as [e |]; [split; reflexivity |].
  rewrite scanCmd_loaded. cbv zeta.
  set (cutoff := cutoffOf now AddDate days).
  assert (Q : forall r s1,
             scanContents DeleteObject bucket cutoff isDryRun isReport
                          (seen pages) (entry b bucket cutoff days) = (r, s1) ->
             deletedKeys (out s1) = [] /\ s3 s1 = b).
  { intros r s1 E. destruct isReport.
    - pose proof (scanContents_report bucket cutoff isDryRun (seen pages)
                    (entry b bucket cutoff days)) as R.
      cbv zeta in R. rewrite E in R. simpl in R. destruct R as (R1 & R2 & _).
      rewrite R1. split; [reflexivity | exact R2].
    - destruct H as [H | H]; [discriminate | subst isDryRun].
      pose proof (scanContents_dry bucket cutoff (seen pages)
                    (entry b bucket cutoff days)) as R.
      cbv zeta in R. rewrite E in R. simpl in R. destruct R as (R1 & R2 & _).
      split; assumption. }
  destruct (scanContents DeleteObject bucket cutoff isDryRun isReport
              (seen pages) (entry b bucket cutoff days)) as [[[] | []] s1];
    destruct (Q _ _ eq_refl) as [Q1 Q2]; simpl; auto.
  destruct (firstError pages) as [e |]; simpl;
    rewrite deletedKeys_app, Q1, ?summaryLines_keys; auto.
Qed.

(** X14. Deleting has to be asked for.  If the process calls [DeleteObject]
    at all, or leaves the backend other than it found it, then cobra ran the
    [scan] command, [--dry-run=false] was written on the command line, and
    [--report] was not set: the defaults of the flags never delete. *)
Theorem deleting_needs_dry_run_false_on_the_command_line :
  forall dispatch loadErr pages (b : S3),
    (exists e,
        In e (Cli.events (Cli.main DeleteObject now AddDate dispatch loadErr
                                   pages b))
        /\ Cli.isScanDelete e = true)
    \/ Cli.backend (Cli.main DeleteObject now AddDate dispatch loadErr pages b)
       <> b ->
    exists g,
      dispatch = Cli.RunScan g
      /\ Cli.givenDryRun g = Some false
      /\ Cli.givenReport g <> Some true.
Proof.
  intros dispatch loadErr pages b H.
  destruct dispatch as [| g | err |].
  - simpl in H.
    destruct H as [(e & [<- | []] & He) | H]; [discriminate | elim H; auto].
  - exists g. split; [reflexivity |].
    rewrite main_scan in H. cbn [Cli.events Cli.backend] in H.
    assert (Q : Cli.reportOnly (Cli.parsed g) = true
                \/ Cli.dryRun (Cli.parsed g) = true -> False).
    { intros M.
      destruct (scanCmd_quiet loadErr pages (Cli.bucketName (Cli.parsed g))
                  (Cli.days (Cli.parsed g)) (Cli.dryRun (Cli.parsed g))
                  (Cli.reportOnly (Cli.parsed g)) b M) as [Q1 Q2].
      destruct H as [(e & Hin & He) | H]; [| auto].
      apply in_map_iff in Hin. destruct Hin as (ev & <- & Hin).
      rewrite deletedKeys_nil_iff in Q1. specialize (Q1 ev Hin).
      destruct ev; simpl in *; discriminate. }
    unfold Cli.parsed, Cli.orDefault in Q. simpl in Q. split.
    + destruct (Cli.givenDryRun g) as [[|] |]; try reflexivity;
        exfalso; apply Q; right; reflexivity.
    + intros E. rewrite E in Q. apply Q. left. reflexivity.
  - simpl in H.
    destruct H as [(e & [<- | []] & He) | H]; [discriminate | elim H; auto].
  - simpl in H. destruct H as [(e & [] & He) | H]; elim H; auto.
Qed.

Lemma scanCmd_returns loadErr pages bucket days isDryRun isReport (b : S3) :
  fst (scanCmd DeleteObject now AddDate loadErr pages bucket days isDryRun
               isReport b) = Returned
  <-> loadErr = None
      /\ firstError pages = None
      /\ forallb (derefSafe (cutoffOf now AddDate days) isReport) (seen pages)
         = true.
Proof.
  destruct loadErr as [e |].
  - simpl. split; [discriminate | intros [H _]; discriminate].
  - rewrite scanCmd_loaded. cbv zeta.
    pose proof (scanContents_result bucket (cutoffOf now AddDate days)
                  isDryRun isReport (seen pages)
                  (entry b bucket (cutoffOf now AddDate days) days)) as F.
    destruct (scanContents DeleteObject bucket (cutoffOf now AddDate days)
                isDryRun isReport (seen pages)
                (entry b bucket (cutoffOf now AddDate days) days))
      as [[[] | []] s1]; simpl in F;
      destruct (forallb (derefSafe (cutoffOf now AddDate days) isReport)
                        (seen pages)); try discriminate; simpl.
    + destruct (firstError pages); simpl; split; auto; try discriminate.
      intros (_ & H & _). discriminate.
    + split; [discriminate | intros (_ & _ & H); discriminate].
Qed.

(** X15. The exit status of the process is 0 exactly when cobra returned no
    error and, if it ran [scan], the configuration loaded, every page was
    listed and no record had a nil pointer the mode dereferences; in every
    other case it is 1 or 2. *)
Theorem exit_status_of_main :
  forall dispatch loadErr pages (b : S3),
    (Cli.status (Cli.main DeleteObject now AddDate dispatch loadErr pages b)
     = 0
     <-> match dispatch with
         | Cli.ExecuteError _ => False
         | Cli.RunScan g =>
             loadErr = None
             /\ firstError pages = None
             /\ forallb (derefSafe
                           (cutoffOf now AddDate (Cli.days (Cli.parsed g)))
                           (Cli.reportOnly (Cli.parsed g)))
                        (seen pages) = true
         | _ => True
         end)
    /\ (Cli.status (Cli.main DeleteObject now AddDate dispatch loadErr pages b)
        <> 0 ->
        Cli.status (Cli.main DeleteObject now AddDate dispatch loadErr pages b)
        = 1
        \/ Cli.status (Cli.main DeleteObject now AddDate dispatch loadErr
                                pages b) = 2).
Proof.
  intros dispatch loadErr pages b.
  destruct dispatch as [| g | err |].
  - simpl. split; [tauto | intros H; elim H; reflexivity].
  - rewrite main_scan. cbn [Cli.status].
    rewrite <- (scanCmd_returns loadErr pages (Cli.bucketName (Cli.parsed g))
                  (Cli.days (Cli.parsed g)) (Cli.dryRun (Cli.parsed g))
                  (Cli.reportOnly (Cli.parsed g)) b).
    destruct (fst (scanCmd DeleteObject now AddDate loadErr pages
                           (Cli.bucketName (Cli.parsed g))
                           (Cli.days (Cli.parsed g))
                           (Cli.dryRun (Cli.parsed g))
                           (Cli.reportOnly (Cli.parsed g)) b)); simpl.
    + split; [tauto | intros H; elim H; reflexivity].
    + split; [split; discriminate | auto].
    + split; [split; discriminate | auto].
  - simpl. split; [split; [discriminate | tauto] | auto].
  - simpl. split; [tauto | intros H; elim H; reflexivity].
Qed.

(** *** What is deleted *)

Lemma scanObject_delete_origin bucket cutoff isDryRun isReport obj s bk k r :
  In (DeleteCall bk k r)
     (out (snd (scanObject DeleteObject bucket cutoff isDryRun isReport obj s)))
  -> In (DeleteCall bk k r) (out s)
     \/ (bk = bucket /\ k = Key obj /\ isStale cutoff obj = true
         /\ isDryRun = false /\ isReport = false).
Proof.
  unfold isStale. destruct (LastModified obj) as [t |] eqn:Ht.
  - destruct (Z.ltb_spec t cutoff) as [Hlt | Hge].
    + rewrite (scanObject_stale _ _ _ _ _ _ _ Ht Hlt).
      destruct isReport; [rewrite staleObject_report; auto |].
      destruct isDryRun.
      * rewrite staleObject_dry. destruct (Key obj); simpl; auto.
        intros H. apply in_app_or in H.
        destruct H as [H | [H | []]]; [auto | discriminate].
      * rewrite staleObject_delete.
        destruct (DeleteObject (s3 s) bucket (Key obj)) as [b1 [e |]];
          destruct (Key obj) as [k0 |]; simpl; intros H;
          repeat (apply in_app_or in H; destruct H as [H | H]);
          auto;
          repeat (destruct H as [H | H]; try discriminate;
                  try (injection H as <- <- <-; right; auto));
          try contradiction.
    + rewrite (scanObject_fresh _ _ _ _ _ _ _ Ht Hge). auto.
  - rewrite scanObject_nil_time by exact Ht. auto.
Qed.

Lemma scanContents_delete_origin bucket cutoff isDryRun isReport objs bk k r :
  forall s,
    In (DeleteCall bk k r)
       (out (snd (scanContents DeleteObject bucket cutoff isDryRun isReport
                               objs s)))
    -> In (DeleteCall bk k r) (out s)
       \/ (bk = bucket /\ isDryRun = false /\ isReport = false
           /\ exists obj,
               In obj objs /\ isStale cutoff obj = true /\ Key obj = k).
Proof.
  induction objs as [| obj objs IH]; intros s; simpl; [auto |].
  unfold bind.
  pose proof (scanObject_delete_origin bucket cutoff isDryRun isReport obj s
                bk k r) as R.
  destruct (scanObject DeleteObject bucket cutoff isDryRun isReport obj s)
    as [[[] | w] s1]; simpl in R.
  - intros H. destruct (IH s1 H) as [H1 | (Hb & Hd & Hr & o & Hin & Hs & Hk)].
    + destruct (R H1) as [H2 | (Hb & Hk & Hs & Hd & Hr)]; [auto |].
      right. repeat split; auto. exists obj. auto.
    + right. repeat split; auto. exists o. auto.
  - intros H. destruct (R H) as [H2 | (Hb & Hk & Hs & Hd & Hr)]; [auto |].
    right. repeat split; auto. exists obj. auto.
Qed.

(** X16. However a run ends, every [DeleteObject] call it made was made in
    live mode, on the bucket of the command line, with the key of a record
    of the listed pages whose timestamp is strictly before the cutoff: a
    fresh object, an object that was not listed or an object of another
    bucket is never the subject of a delete. *)
Theorem only_stale_listed_records_are_deleted :
  forall loadErr pages bucket days isDryRun isReport (b : S3) bk k r,
    In (DeleteCall bk k r)
       (out (snd (scanCmd DeleteObject now AddDate loadErr pages bucket days
                          isDryRun isReport b))) ->
    bk = bucket /\ isDryRun = false /\ isReport = false
    /\ exists obj,
        In obj (seen pages)
        /\ isStale (cutoffOf now AddDate days) obj = true
        /\ Key obj = k.
Proof.
  intros loadErr pages bucket days isDryRun isReport b bk k r.
  destruct loadErr as [e |].
  { simpl. intros [H | []]. discriminate. }
  rewrite scanCmd_loaded. cbv zeta.
  set (cutoff := cutoffOf now AddDate days).
  pose proof (scanContents_delete_origin bucket cutoff isDryRun isReport
                (seen pages) bk k r (entry b bucket cutoff days)) as R.
  assert (Q : forall s1,
             s1 = snd (scanContents DeleteObject bucket cutoff isDryRun
                                    isReport (seen pages)
                                    (entry b bucket cutoff days)) ->
             In (DeleteCall bk k r) (out s1) ->
             bk = bucket /\ isDryRun = false /\ isReport = false
             /\ exists obj,
                 In obj (seen pages) /\ isStale cutoff obj = true
                 /\ Key obj = k).
  { intros s1 -> H. destruct (R H) as [[H1 | []] | H1]; [discriminate | auto]. }
  destruct (scanContents DeleteObject bucket cutoff isDryRun isReport
              (seen pages) (entry b bucket cutoff days)) as [[[] | []] s1];
    simpl in Q; simpl; try (apply Q; reflexivity).
  destruct (firstError pages) as [e |]; simpl; intros H;
    apply in_app_or in H; destruct H as [H | H];
    try (apply (Q s1 eq_refl H)).
  - destruct H as [H | []]. discriminate.
  - exfalso. unfold summaryLines in H.
    destruct isReport, isDryRun; simpl in H;
      repeat (destruct H as [H | H]; try discriminate); contradiction.
Qed.

(** *** The figures of the report *)

(** C8 (amended). The report of a run that returns carries the final byte
    total, an [int64].  For every such total: the size in GB is
    [float64(total)] with its exponent lowered by 30, that is
    total / 1024^3 exactly when |total| < 2^53 and to within one unit in the
    last place of the [float64] otherwise; the savings are the [float64]
    product of that size and of the [float64] nearest to 0.023; and the
    savings displayed with four decimals differ from the exact
    total / 1024^3 x 0.023 by at most 0.51 ten-thousandths.  The displayed
    value need not be the exact product rounded to four decimals. *)
Theorem C8_savings_displayed_within_tolerance :
  (forall pages bucket days isDryRun (b : S3),
      fst (scanCmd DeleteObject now AddDate None pages bucket days isDryRun
                   true b) = Returned ->
      in_int64 (totalSize (snd (scanCmd DeleteObject now AddDate None pages
                                        bucket days isDryRun true b)))
      /\ In (ReportGB
               (totalSize (snd (scanCmd DeleteObject now AddDate None pages
                                        bucket days isDryRun true b))))
            (out (snd (scanCmd DeleteObject now AddDate None pages bucket
                               days isDryRun true b)))
      /\ In (ReportSavings
               (totalSize (snd (scanCmd DeleteObject now AddDate None pages
                                        bucket days isDryRun true b))))
            (out (snd (scanCmd DeleteObject now AddDate None pages bucket
                               days isDryRun true b))))
  /\ (forall z,
         in_int64 z ->
         estimatedSavings z = float64_mul (sizeInGB z) pricePerGB
         /\ (exists a,
                fourDecimals (ReportSavings z) = Some a
                /\ 100 * Z.abs (a * 2 ^ 30 - 230 * z) <= 51 * 2 ^ 30)
         /\ (z <> 0 ->
             exists m e,
               float64_of_int64 z = S754_finite (z <? 0) m e
               /\ sizeInGB z = S754_finite (z <? 0) m (e - 30)
               /\ Z.abs (Zpos m * 2 ^ (e + 52) - Z.abs z * 2 ^ 52)
                  <= 2 ^ (e + 52)
               /\ (Z.abs z < 2 ^ 53 ->
                   e <= 0 /\ Zpos m = Z.abs z * 2 ^ (- e))))
  /\ pricePerGB = S754_finite false 6629298651489370 (-58)
  /\ 2 * Z.abs (1000 * 6629298651489370 - 23 * 2 ^ 58) <= 1000.
Proof.
  split; [| split; [| exact pricePerGB_nearest]].
  - intros pages bucket days isDryRun b.
    rewrite scanCmd_loaded. cbv zeta.
    set (cutoff := cutoffOf now AddDate days).
    pose proof (scanContents_acc bucket cutoff isDryRun true (seen pages)
                  (entry b bucket cutoff days)) as A.
    destruct (scanContents DeleteObject bucket cutoff isDryRun true (seen pages)
                (entry b bucket cutoff days)) as [[[] | []] s1];
      try discriminate.
    destruct (firstError pages) as [e |]; [discriminate |].
    intros _. destruct (A s1 eq_refl in_int64_0 in_int64_0) as [_ A2].
    cbn [fst snd addOut totalSize out].
    split; [rewrite A2; apply wrap64_range |].
    split; apply in_or_app; right; unfold summaryLines; simpl; tauto.
  - intros z Hz. split; [reflexivity |]. split.
    + unfold in_int64, int64_min, int64_max in Hz.
      exact (savings_tolerance z Hz).
    + intros Hnz.
      destruct (sizeInGB_spec z Hz Hnz) as (m & e & E1 & E2 & _ & _ & F & X).
      exists m, e. auto.
Qed.

End Properties.

(** ** The example of the specification, run *)

Example example_report_only :
  scanCmd okBackend noon addDays None examplePages bkt 30 true true 0%nat
  = (Returned,
     mkState 1 GiB 0 0%nat
       [ScanBanner bkt (noon - 30 * dayNs) 30; Separator; ReportHeader;
        ReportStale 1; ReportGB GiB; ReportSavings GiB; ReportFootnote]).
Proof. vm_compute. reflexivity. Qed.

Example example_dry_run :
  scanCmd okBackend noon addDays None examplePages bkt 30 true false 0%nat
  = (Returned,
     mkState 1 GiB 0 0%nat
       [ScanBanner bkt (noon - 30 * dayNs) 30;
        DryRunLine "logs/a.log" (noon - 40 * dayNs) (Some GiB);
        Separator; DrySummary 1 GiB; DryHint]).
Proof. vm_compute. reflexivity. Qed.

Example example_live :
  scanCmd okBackend noon addDays None examplePages bkt 30 false false 0%nat
  = (Returned,
     mkState 1 GiB 1 1%nat
       [ScanBanner bkt (noon - 30 * dayNs) 30;
        DeleteCall bkt (Some "logs/a.log"%string) None;
        DeletedLine "logs/a.log"; Separator; CleanupSummary 1]).
Proof. vm_compute. reflexivity. Qed.

(** ** The theorems at concrete inputs *)


Lemma C2_witness :
  s3 (snd (scanCmd okBackend noon addDays None examplePages bkt 30 false true
                   0%nat)) = 0%nat.
Proof.
  exact (proj2 (C2_report_only_never_deletes nat okBackend noon addDays None
                  examplePages bkt 30 false 0%nat)).
Defined.

Lemma C3_witness :
  count isDryRunLine
        (out (snd (scanCmd okBackend noon addDays None examplePages bkt 30
                           true false 0%nat)))
  = staleCount (snd (scanCmd okBackend noon addDays None examplePages bkt 30
                             true false 0%nat)).
Proof.
  destruct (C3_dry_run_lines_equal_stale_count nat okBackend noon addDays None
              examplePages bkt 30 0%nat) as (_ & _ & H).
  apply H.
  - vm_compute. discriminate.
  - vm_compute. discriminate.
Defined.

Lemma C4_witness :
  deletedKeys
    (out (snd (scanCmd flakyBackend noon addDays None
                       [PageOk [objA; objB; objNoSize]; PageOk [objA]]
                       bkt 30 false false 0%nat)))
  = [Some "logs/a.log"%string; Some "tmp/c.bin"%string;
     Some "logs/a.log"%string]
  /\ deletedCount
       (snd (scanCmd flakyBackend noon addDays None
                     [PageOk [objA; objB; objNoSize]; PageOk [objA]]
                     bkt 30 false false 0%nat))
     <= staleCount
          (snd (scanCmd flakyBackend noon addDays None
                        [PageOk [objA; objB; objNoSize]; PageOk [objA]]
                        bkt 30 false false 0%nat)).
Proof.
  destruct (C4_live_run_deletes_each_stale_record_once nat flakyBackend noon
              addDays [PageOk [objA; objB; objNoSize]; PageOk [objA]]
              bkt 30 0%nat) as (K & _ & _ & L & _).
  - vm_compute. discriminate.
  - vm_compute. discriminate.
  - split; [exact K | exact L].
Defined.

Lemma C5_witness :
  totalSize (snd (scanContents okBackend bkt (cutoffOf noon addDays 30)
                               true true [objA; objB; objNoSize]
                               (entry 0%nat bkt (cutoffOf noon addDays 30) 30)))
  = staleBytes (cutoffOf noon addDays 30) [objA; objB; objNoSize].
Proof.
  assert (H : scanContents okBackend bkt (cutoffOf noon addDays 30) true true
                           [objA; objB; objNoSize]
                           (entry 0%nat bkt (cutoffOf noon addDays 30) 30)
              = (Val tt,
                 snd (scanContents okBackend bkt (cutoffOf noon addDays 30)
                                   true true [objA; objB; objNoSize]
                                   (entry 0%nat bkt (cutoffOf noon addDays 30)
                                          30))))
    by (vm_compute; reflexivity).
  apply (proj1 (proj2 (C5_byte_total_is_the_int64_sum_of_stale_sizes
                         nat okBackend bkt (cutoffOf noon addDays 30) 30
                         true true 0%nat [objA; objB; objNoSize] _ H))).
  vm_compute. split; intros X; discriminate X.
Defined.

(** C5, as stated, fails: two stale records of 2^62 bytes each leave a byte
    total of -2^63, and the sum of their sizes is 2^63. *)
Lemma C5_counterexample_int64_overflow :
  totalSize (snd (scanCmd okBackend noon addDays None
                          [PageOk [objHuge; objHuge]] bkt 30 true true 0%nat))
  = - 2 ^ 63
  /\ staleBytes (cutoffOf noon addDays 30) (seen [PageOk [objHuge; objHuge]])
     = 2 ^ 63
  /\ totalSize (snd (scanCmd okBackend noon addDays None
                             [PageOk [objHuge; objHuge]] bkt 30 true true
                             0%nat))
     <> staleBytes (cutoffOf noon addDays 30)
                   (seen [PageOk [objHuge; objHuge]]).
Proof.
  split; [vm_compute; reflexivity |].
  split; [vm_compute; reflexivity |].
  vm_compute. discriminate.
Qed.

Lemma C6_witness :
  scanObject deniedBackend bkt (cutoffOf noon addDays 30) false false objA
             (start 0%nat)
  = (Val tt,
     mkState 1 GiB 0 1%nat
       [DeleteCall bkt (Some "logs/a.log"%string) (Some "AccessDenied"%string);
        DeleteWarn "logs/a.log" "AccessDenied"%string]).
Proof.
  assert (Hlt : noon - 40 * dayNs < cutoffOf noon addDays 30)
    by (vm_compute; reflexivity).
  exact (proj1 (C6_failed_delete_is_logged_and_skipped nat deniedBackend bkt
                  (cutoffOf noon addDays 30) objA (noon - 40 * dayNs)
                  "logs/a.log"%string "AccessDenied"%string 1%nat
                  (start 0%nat) [objB] eq_refl Hlt eq_refl eq_refl)).
Defined.

Lemma C7_witness :
  fst (scanCmd okBackend noon addDays None
               (map PageOk [[objA]] ++
                PageErr "RequestTimeout"%string :: [PageOk [objNoTime]])
               bkt 30 false false 0%nat)
  = FatalExit.
Proof.
  destruct (C7_listing_failure_is_fatal nat okBackend noon addDays [[objA]]
              "RequestTimeout"%string [PageOk [objNoTime]] bkt 30 false false
              0%nat) as (_ & _ & _ & H).
  destruct (H eq_refl) as (s1 & _ & E).
  rewrite E. reflexivity.
Defined.

Lemma C9_witness :
  (fst (scanCmd okBackend noon addDays None examplePages bkt 30 true true
                0%nat) = Returned
   /\ exitCode (fst (scanCmd okBackend noon addDays None examplePages bkt 30
                             true true 0%nat)) = 0)
  /\ exitCode (fst (scanCmd okBackend noon addDays None
                            [PageOk [objA]; PageErr "RequestTimeout"%string]
                            bkt 30 true true 0%nat)) = 1.
Proof.
  split.
  - exact (proj1 (C9_exit_status nat okBackend noon addDays examplePages bkt
                    30 true true 0%nat) eq_refl eq_refl).
  - exact (proj2 (proj2 (proj2 (proj2 (C9_exit_status nat okBackend noon
                                         addDays
                                         [PageOk [objA];
                                          PageErr "RequestTimeout"%string]
                                         bkt 30 true true 0%nat))
                          "RequestTimeout"%string eq_refl eq_refl))).
Defined.

Lemma C10_witness :
  fst (scanCmd okBackend noon addDays None [PageOk [objA; objNoSize; objB]]
               bkt 30 false false 0%nat) <> Panicked
  /\ LastModified objA <> None.
Proof.
  pose proof (proj1 (C10_nil_pointer_precondition nat okBackend noon addDays
                       [PageOk [objA; objNoSize; objB]] bkt 30 false false
                       0%nat)) as H.
  assert (P : fst (scanCmd okBackend noon addDays None
                           [PageOk [objA; objNoSize; objB]] bkt 30 false false
                           0%nat) <> Panicked).
  { apply (proj2 H).
    intros obj [<- | [<- | [<- | []]]]; split; try discriminate;
      intros _ _; discriminate. }
  split; [exact P |].
  exact (proj1 (proj1 H P objA (or_introl eq_refl))).
Defined.

(** ** The further theorems at concrete inputs *)

Lemma report_only_run_in_full_witness :
  scanCmd okBackend noon addDays None examplePages bkt 30 false true 0%nat
  = (Returned,
     mkState 1 GiB 0 0%nat
       [ScanBanner bkt (noon - 30 * dayNs) 30; Separator; ReportHeader;
        ReportStale 1; ReportGB GiB; ReportSavings GiB; ReportFootnote]).
Proof.
  rewrite (report_only_run_in_full nat okBackend noon addDays examplePages bkt
             30 false 0%nat eq_refl eq_refl).
  vm_compute. reflexivity.
Defined.

Lemma dry_run_in_full_witness :
  fst (scanCmd okBackend noon addDays None
               [PageOk [objA; objNoSize]; PageOk [objB]] bkt 30 true false
               0%nat)
  = Returned.
Proof.
  rewrite (dry_run_in_full nat okBackend noon addDays
             [PageOk [objA; objNoSize]; PageOk [objB]] bkt 30 0%nat
             eq_refl eq_refl).
  reflexivity.
Defined.

Lemma dry_run_previews_live_deletes_witness :
  map Some
      (dryRunKeys
         (out (snd (scanCmd flakyBackend noon addDays None
                            [PageOk [objA; objNoSize]; PageOk [objB]] bkt 30
                            true false 0%nat))))
  = deletedKeys
      (out (snd (scanCmd flakyBackend noon addDays None
                         [PageOk [objA; objNoSize]; PageOk [objB]] bkt 30
                         false false 5%nat))).
Proof.
  exact (dry_run_previews_live_deletes nat flakyBackend noon addDays
           [PageOk [objA; objNoSize]; PageOk [objB]] bkt 30 0%nat 5%nat
           eq_refl).
Defined.

Lemma final_figures_depend_on_listing_only_witness :
  staleCount (snd (scanCmd flakyBackend noon addDays None
                           [PageOk [objA; objNoSize]; PageOk [objB]] bkt 30
                           false false 0%nat))
  = countStale (cutoffOf noon addDays 30) [objA; objNoSize; objB].
Proof.
  destruct (final_figures_depend_on_listing_only nat flakyBackend noon
              addDays [PageOk [objA; objNoSize]; PageOk [objB]] bkt 30 false
              false 0%nat) as [E _].
  - vm_compute. discriminate.
  - vm_compute. discriminate.
  - exact E.
Defined.

Lemma page_boundaries_do_not_matter_witness :
  scanCmd flakyBackend noon addDays None [PageOk [objA]; PageOk [objNoSize]]
          bkt 30 false false 0%nat
  = scanCmd flakyBackend noon addDays None [PageOk [objA; objNoSize]]
            bkt 30 false false 0%nat.
Proof.
  exact (page_boundaries_do_not_matter nat flakyBackend noon addDays None
           [PageOk [objA]; PageOk [objNoSize]] [PageOk [objA; objNoSize]]
           bkt 30 false false 0%nat eq_refl eq_refl).
Defined.

Lemma empty_listing_witness :
  scanCmd okBackend noon addDays None [PageOk []; PageOk []] bkt 30 false
          false 0%nat
  = (Returned,
     mkState 0 0 0 0%nat
       [ScanBanner bkt (cutoffOf noon addDays 30) 30; Separator;
        CleanupSummary 0]).
Proof.
  exact (empty_listing nat okBackend noon addDays [PageOk []; PageOk []] bkt
           30 false false 0%nat eq_refl eq_refl).
Defined.

Lemma live_summary_counts_the_deleted_lines_witness :
  deletedCount
    (snd (scanCmd flakyBackend noon addDays None
                  [PageOk [objA; objB; objNoSize]; PageOk [objA]] bkt 30
                  false false 0%nat))
  = count isDeletedLine
          (out (snd (scanCmd flakyBackend noon addDays None
                             [PageOk [objA; objB; objNoSize]; PageOk [objA]]
                             bkt 30 false false 0%nat))).
Proof.
  destruct (live_summary_counts_the_deleted_lines nat flakyBackend noon
              addDays [PageOk [objA; objB; objNoSize]; PageOk [objA]] bkt 30
              0%nat) as [E _].
  - vm_compute. discriminate.
  - vm_compute. discriminate.
  - exact E.
Defined.

Lemma earlier_cutoff_finds_no_more_witness :
  staleCount (snd (scanCmd okBackend noon addDays None
                           [PageOk [objA; objB; objNoSize]] bkt 60 true true
                           0%nat))
  <= staleCount (snd (scanCmd okBackend noon addDays None
                              [PageOk [objA; objB; objNoSize]] bkt 30 false
                              false 0%nat)).
Proof.
  apply (earlier_cutoff_finds_no_more nat okBackend noon addDays
           [PageOk [objA; objB; objNoSize]] bkt 60 30 true true false false
           0%nat 0%nat).
  - vm_compute. discriminate.
  - vm_compute. discriminate.
  - vm_compute. discriminate.
  - vm_compute. discriminate.
Defined.

Lemma nil_timestamp_stops_the_run_witness :
  fst (scanCmd okBackend noon addDays None
               [PageOk [objA; objNoTime; objB]] bkt 30 false false 0%nat)
  = Panicked.
Proof.
  destruct (nil_timestamp_stops_the_run nat okBackend noon addDays
              [PageOk [objA; objNoTime; objB]] [objA] objNoTime [objB] bkt 30
              false false 0%nat eq_refl eq_refl eq_refl) as (s1 & _ & E).
  rewrite E. reflexivity.
Defined.

Lemma nil_key_stops_the_run_after_the_delete_call_witness :
  fst (scanCmd okBackend noon addDays None [PageOk [objA; objNoKey; objB]]
               bkt 30 false false 0%nat)
  = Panicked.
Proof.
  assert (Hlt : noon - 90 * dayNs < cutoffOf noon addDays 30)
    by (vm_compute; reflexivity).
  destruct (nil_key_stops_the_run_after_the_delete_call nat okBackend noon
              addDays [PageOk [objA; objNoKey; objB]] [objA] objNoKey
              (noon - 90 * dayNs) [objB] bkt 30 0%nat eq_refl eq_refl eq_refl
              Hlt eq_refl) as [(s1 & _ & E) _].
  rewrite E. reflexivity.
Defined.

Lemma deleting_needs_dry_run_false_witness :
  exists g,
    Cli.RunScan (Cli.mkGiven (Some bkt) None (Some false) None) = Cli.RunScan g
    /\ Cli.givenDryRun g = Some false
    /\ Cli.givenReport g <> Some true.
Proof.
  apply (deleting_needs_dry_run_false_on_the_command_line nat okBackend noon
           addDays (Cli.RunScan (Cli.mkGiven (Some bkt) None (Some false) None))
           None examplePages 0%nat).
  right. vm_compute. discriminate.
Defined.

Lemma only_stale_listed_records_are_deleted_witness :
  bkt = bkt /\ false = false /\ false = false
  /\ exists obj,
      In obj (seen examplePages)
      /\ isStale (cutoffOf noon addDays 30) obj = true
      /\ Key obj = Some "logs/a.log"%string.
Proof.
  apply (only_stale_listed_records_are_deleted nat okBackend noon addDays None
           examplePages bkt 30 false false 0%nat bkt
           (Some "logs/a.log"%string) None).
  vm_compute. right. left. reflexivity.
Defined.

(** ** The figures of the report at concrete inputs *)

Example example_savings_of_one_GiB :
  fourDecimals (ReportGB GiB) = Some 10000
  /\ fourDecimals (ReportSavings GiB) = Some 230.
Proof. split; vm_compute; reflexivity. Qed.

Lemma C8_witness :
  exists a,
    fourDecimals (ReportSavings (3 * GiB)) = Some a
    /\ 100 * Z.abs (a * 2 ^ 30 - 230 * (3 * GiB)) <= 51 * 2 ^ 30.
Proof.
  assert (H : in_int64 (3 * GiB)) by (vm_compute; split; discriminate).
  exact (proj1 (proj2 (proj1 (proj2
           (C8_savings_displayed_within_tolerance nat okBackend noon addDays))
           (3 * GiB) H))).
Defined.

(** C8, as stated, fails: for a byte total of 2^28 (a quarter of a GiB) the
    size is 0.25 GB and 0.25 x 0.023 is 0.00575, which to four decimals is
    0.0058; the report displays 0.0057. *)
Lemma C8_counterexample_quarter_GiB :
  totalSize (snd (scanCmd okBackend noon addDays None [PageOk [objQuarterGiB]]
                          bkt 30 true true 0%nat)) = 2 ^ 28
  /\ fourDecimals (ReportGB (2 ^ 28)) = Some 2500
  /\ fourDecimals (ReportSavings (2 ^ 28)) = Some 57
  /\ 2 * (2500 * 23) = (2 * 57 + 1) * 1000
  /\ round_half_even (2500 * 23) 1000 = 58
  /\ fourDecimals (ReportSavings (2 ^ 28))
     <> Some (round_half_even (2500 * 23) 1000).
Proof.
  repeat split; try (vm_compute; reflexivity).
  vm_compute. discriminate.
Qed.
